(** * FPGA region manager: region interfaces, the region core, the resolver

    A shallow embedding of [fpga-region-interface.c], of
    [fpga-region-core.c] and of the device tree resolver of
    [fpga-region-manager.c].  Kernel objects live in a store indexed by
    their address; every C function is a computation over that store which
    either returns a value together with the new store, or is undefined (a
    pointer that designates no object).  Reference counts of the driver
    core ([get_device], [put_device], [of_node_get], [of_node_put]) and the
    spinlock around the list links have no influence on control flow and
    are left out. *)

From Stdlib Require Import ZArith String List.
From stdpp Require Import gmap strings list.
Import ListNotations.

Local Open Scope string_scope.
Local Open Scope list_scope.

(** ** Error numbers *)

Definition EBUSY : positive := 16.
Definition ENODEV : positive := 19.

(** A pointer returned through [ERR_PTR]: either a valid pointer or an
    error number, [ERR_PTR errno] standing for the C value
    [ERR_PTR(-errno)].  [IS_ERR] is the match on the two cases and
    [PTR_ERR] of an error is the code [Z.neg errno]. *)
Inductive err_ptr (A : Type) : Type :=
| ERR_PTR (errno : positive)
| PTR (p : A).
Arguments ERR_PTR {A} errno.
Arguments PTR {A} p.

(** ** Data model *)

(** [struct fpga_image_info]: only the overlay node is read by this code;
    the firmware name tells two images apart. *)
Record fpga_image_info := {
  firmware_name : string;
  overlay : option nat;
}.

(** The class of the device a list node belongs to ([dev.class]): either
    [fpga_region_interface_class] or the class of the legacy bridge
    framework.  The payload is the address of the object. *)
Inductive member : Type :=
| Interface (p : nat)
| Bridge (b : nat).

(** What the code reports or calls, in program order. *)
Inductive event : Type :=
| Dbg (m : member) (msg : string)            (* dev_dbg(&interface->dev, msg) *)
| RegionDbg (msg : string)                   (* dev_dbg(&region->dev, msg)    *)
| RegionErr (msg : string)                   (* dev_err(&region->dev, msg)    *)
| CallEnableSet (p : nat) (enable : bool)    (* ops->enable_set(interface, enable) *)
| CallOfSetup (p : nat) (node : nat)         (* ops->of_setup(interface, node) *)
| CallRemove (p : nat)                       (* ops->remove(interface)        *)
| CallGetInterfaces                          (* region->get_interfaces(region) *)
| CallMgrLoad (info : option fpga_image_info)
| CallBridgeEnable (b : nat)
| CallBridgeDisable (b : nat)
| CallBridgePut (b : nat)
| CallBridgeGet (np : option nat)             (* of_fpga_bridge_get(np, info)  *)
| CallBridgeGetDev (dev : nat).               (* fpga_bridge_get(dev, info)    *)

Section Model.

(** State of everything outside this repository that the hooks and the
    kernel services act on: low level drivers, hardware, the module loader,
    the legacy bridge framework, the programming engine.  Hooks and
    services act on this state only; they do not call back into the code
    modelled here. *)
Context {E : Type}.

(** [struct fpga_region_interface_ops].  A hook receives the interface; what
    it can observe of it that changes over time is [interface->info]. *)
Record fpga_region_interface_ops := {
  enable_show : option (E -> Z);
  enable_set : option (option fpga_image_info -> bool -> E -> Z * E);
  of_setup : option (option fpga_image_info -> nat -> E -> Z * E);
  remove : option (option fpga_image_info -> E -> E);
}.

(** [struct fpga_region_interface]; [mutex] is [true] when locked. *)
Record fpga_region_interface := {
  name : string;
  of_node : option nat;       (* dev.of_node *)
  parent : nat;               (* dev.parent *)
  owner : nat;                (* dev.parent->driver->owner *)
  mutex : bool;
  ops : option fpga_region_interface_ops;
  info : option fpga_image_info;
}.

Definition set_info (v : option fpga_image_info) (i : fpga_region_interface) :=
  {| name := name i; of_node := of_node i; parent := parent i; owner := owner i;
     mutex := mutex i; ops := ops i; info := v |}.

Definition set_mutex (v : bool) (i : fpga_region_interface) :=
  {| name := name i; of_node := of_node i; parent := parent i; owner := owner i;
     mutex := v; ops := ops i; info := info i |}.

(** [struct fpga_region_core].  The list head [interface_list] is the
    sequence of its nodes from [head->next] on.  The function pointer
    [get_interfaces], fixed by [fpga_region_core_create], is passed
    alongside the store. *)
Record fpga_region_core := {
  region_of_node : nat;       (* dev.of_node *)
  region_owner : nat;         (* dev.parent->driver->owner *)
  region_mutex : bool;
  interface_list : list member;
  region_info : option fpga_image_info;
}.

Definition set_region_mutex (v : bool) (r : fpga_region_core) :=
  {| region_of_node := region_of_node r;
     region_owner := region_owner r; region_mutex := v;
     interface_list := interface_list r; region_info := region_info r |}.

Definition set_interface_list (l : list member) (r : fpga_region_core) :=
  {| region_of_node := region_of_node r;
     region_owner := region_owner r; region_mutex := region_mutex r;
     interface_list := l; region_info := region_info r |}.

(** The store. *)
Record world := {
  interfaces : gmap nat fpga_region_interface;
  class_devices : list nat;   (* devices of fpga_region_interface_class *)
  region : fpga_region_core;
  mgr_ref_mutex : bool;       (* region->mgr->ref_mutex *)
  ext : E;
  trace : list event;
}.

Definition set_interfaces (v : gmap nat fpga_region_interface) (w : world) :=
  {| interfaces := v; class_devices := class_devices w; region := region w;
     mgr_ref_mutex := mgr_ref_mutex w; ext := ext w; trace := trace w |}.

Definition set_class_devices (v : list nat) (w : world) :=
  {| interfaces := interfaces w; class_devices := v; region := region w;
     mgr_ref_mutex := mgr_ref_mutex w; ext := ext w; trace := trace w |}.

Definition set_region (v : fpga_region_core) (w : world) :=
  {| interfaces := interfaces w; class_devices := class_devices w; region := v;
     mgr_ref_mutex := mgr_ref_mutex w; ext := ext w; trace := trace w |}.

Definition set_mgr_ref_mutex (v : bool) (w : world) :=
  {| interfaces := interfaces w; class_devices := class_devices w;
     region := region w; mgr_ref_mutex := v; ext := ext w; trace := trace w |}.

Definition set_ext (v : E) (w : world) :=
  {| interfaces := interfaces w; class_devices := class_devices w;
     region := region w; mgr_ref_mutex := mgr_ref_mutex w; ext := v;
     trace := trace w |}.

Definition set_trace (v : list event) (w : world) :=
  {| interfaces := interfaces w; class_devices := class_devices w;
     region := region w; mgr_ref_mutex := mgr_ref_mutex w; ext := ext w;
     trace := v |}.

(** Kernel services this code calls and that live outside the repository.
    The device tree is read only: [node_parent n] is [n->parent], and
    [phandles np prop] lists the nodes the phandle property [prop] of [np]
    resolves to, up to the first entry that does not resolve. *)
Record kernel := {
  try_module_get : nat -> E -> bool * E;
  module_put : nat -> E -> E;
  of_find_node_by_name : option nat -> string -> option nat;
  node_parent : nat -> option nat;
  phandles : option nat -> string -> list nat;
  fpga_mgr_load : option fpga_image_info -> E -> Z * E;
  fpga_bridge_enable : nat -> E -> Z * E;
  fpga_bridge_disable : nat -> E -> Z * E;
  fpga_bridge_put : nat -> E -> E;
  of_fpga_bridge_get : option nat -> option fpga_image_info -> E -> err_ptr nat * E;
  fpga_bridge_get : nat -> option fpga_image_info -> E -> err_ptr nat * E;
}.

Variable K : kernel.

(** ** Computations over the store *)

Definition M (A : Type) : Type := world -> option (A * world).

Definition ret {A} (a : A) : M A := fun w => Some (a, w).

Definition bind {A B} (c : M A) (k : A -> M B) : M B :=
  fun w => match c w with
           | Some (a, w') => k a w'
           | None => None
           end.

Notation "x <- c ;; k" := (bind c (fun x => k))
  (at level 100, c at next level, right associativity).
Notation "c ;;; k" := (bind c (fun _ => k))
  (at level 100, right associativity).

Definition log (e : event) : M unit :=
  fun w => Some (tt, set_trace (trace w ++ [e]) w).

(** Dereference an interface pointer; undefined when nothing lives there. *)
Definition deref (p : nat) : M fpga_region_interface :=
  fun w => match interfaces w !! p with
           | Some i => Some (i, w)
           | None => None
           end.

Definition store (p : nat) (i : fpga_region_interface) : M unit :=
  fun w => Some (tt, set_interfaces (<[p := i]> (interfaces w)) w).

(** Run an external service or a hook on the external state. *)
Definition external {A} (f : E -> A * E) : M A :=
  fun w => let '(a, e) := f (ext w) in Some (a, set_ext e w).

Definition external_ (f : E -> E) : M unit :=
  fun w => Some (tt, set_ext (f (ext w)) w).

(** ** fpga-region-interface.c *)

Definition fpga_region_interface_enable (m : member) : M Z :=
  log (Dbg m "enable") ;;;
  match m with
  | Bridge b => log (CallBridgeEnable b) ;;; external (fpga_bridge_enable K b)
  | Interface p =>
      i <- deref p ;;
      match ops i with
      | Some o =>
          match enable_set o with
          | Some hook => log (CallEnableSet p true) ;;; external (hook (info i) true)
          | None => ret 0%Z
          end
      | None => ret 0%Z
      end
  end.

Definition fpga_region_interface_disable (m : member) : M Z :=
  log (Dbg m "disable") ;;;
  match m with
  | Bridge b => log (CallBridgeDisable b) ;;; external (fpga_bridge_disable K b)
  | Interface p =>
      i <- deref p ;;
      match ops i with
      | Some o =>
          match enable_set o with
          | Some hook => log (CallEnableSet p false) ;;; external (hook (info i) false)
          | None => ret 0%Z
          end
      | None => ret 0%Z
      end
  end.

Definition fpga_region_interface_of_setup (m : member) (np : option nat) : M Z :=
  log (Dbg m "setup") ;;;
  match m with
  | Bridge _ => ret 0%Z
  | Interface p =>
      i <- deref p ;;
      match ops i with
      | Some o =>
          match of_setup o with
          | Some hook =>
              match of_find_node_by_name K np (name i) with
              | Some node =>
                  log (CallOfSetup p node) ;;; external (hook (info i) node)
              | None => ret 0%Z
              end
          | None => ret 0%Z
          end
      | None => ret 0%Z
      end
  end.

(** [mutex_trylock(&interface->mutex)] and [mutex_unlock(&interface->mutex)]. *)
Definition mutex_trylock (p : nat) : M bool :=
  i <- deref p ;;
  if mutex i then ret false else store p (set_mutex true i) ;;; ret true.

Definition mutex_unlock (p : nat) : M unit :=
  i <- deref p ;; store p (set_mutex false i).

(** [interface->info = v]. *)
Definition write_info (p : nat) (v : option fpga_image_info) : M unit :=
  i <- deref p ;; store p (set_info v i).

Definition __fpga_region_interface_get (p : nat) (info_ : option fpga_image_info)
  : M (err_ptr nat) :=
  write_info p info_ ;;;
  locked <- mutex_trylock p ;;
  if negb locked then ret (ERR_PTR EBUSY)            (* err_dev *)
  else
    i <- deref p ;;
    ok <- external (try_module_get K (owner i)) ;;
    if negb ok then
      mutex_unlock p ;;; ret (ERR_PTR ENODEV)        (* err_ll_mod *)
    else
      log (Dbg (Interface p) "get") ;;; ret (PTR p).

(** [class_find_device(fpga_region_interface_class, NULL, data, match)]:
    the first registered device the match function accepts. *)
Definition class_find_device (match_ : fpga_region_interface -> bool)
  : M (option nat) :=
  fun w =>
    Some (List.find (fun p => match interfaces w !! p with
                              | Some i => match_ i
                              | None => false
                              end) (class_devices w), w).

Definition of_fpga_region_interface_get (np : option nat)
  (info_ : option fpga_image_info) : M (err_ptr nat) :=
  dev <- class_find_device (fun i => bool_decide (of_node i = np)) ;;
  match dev with
  | None => ret (ERR_PTR ENODEV)
  | Some p => __fpga_region_interface_get p info_
  end.

Definition fpga_region_interface_dev_match (data : nat)
  (i : fpga_region_interface) : bool :=
  bool_decide (parent i = data).

Definition fpga_region_interface_get (dev : nat)
  (info_ : option fpga_image_info) : M (err_ptr nat) :=
  interface_dev <- class_find_device (fpga_region_interface_dev_match dev) ;;
  match interface_dev with
  | None => ret (ERR_PTR ENODEV)
  | Some p => __fpga_region_interface_get p info_
  end.

Definition fpga_region_interface_put (p : nat) : M unit :=
  log (Dbg (Interface p) "put") ;;;
  write_info p None ;;;
  i <- deref p ;;
  external_ (module_put K (owner i)) ;;;
  mutex_unlock p.

(** [list_for_each_entry] with the loop body of the three list walks:
    [ret = body(entry); if (ret) return ret;], and [return 0] after the
    loop. *)
Fixpoint list_for_each_entry (body : member -> M Z) (l : list member) : M Z :=
  match l with
  | [] => ret 0%Z
  | m :: l' =>
      r <- body m ;;
      if (r =? 0)%Z then list_for_each_entry body l' else ret r
  end.

Definition list_for_each_entry_reverse (body : member -> M Z)
  (l : list member) : M Z :=
  list_for_each_entry body (rev l).

Definition fpga_region_interfaces_enable (interface_list_ : list member) : M Z :=
  list_for_each_entry fpga_region_interface_enable interface_list_.

Definition fpga_region_interfaces_disable (interface_list_ : list member) : M Z :=
  list_for_each_entry_reverse fpga_region_interface_disable interface_list_.

Definition fpga_region_interfaces_of_setup (interface_list_ : list member)
  (np : option nat) : M Z :=
  list_for_each_entry (fun m => fpga_region_interface_of_setup m np)
    interface_list_.

(** Returns what is left of the list: every visited node is unlinked
    ([list_del]) after its member has been put. *)
Fixpoint fpga_region_interfaces_put (interface_list_ : list member)
  : M (list member) :=
  match interface_list_ with
  | [] => ret []
  | m :: next =>
      match m with
      | Interface p => fpga_region_interface_put p
      | Bridge b => log (CallBridgePut b) ;;; external_ (fpga_bridge_put K b)
      end ;;;
      fpga_region_interfaces_put next
  end.

(** [list_add(new, head)] links [new] right after the head. *)
Definition list_add (m : member) (head : list member) : list member := m :: head.

Definition of_fpga_region_interface_get_to_list (np : option nat)
  (info_ : option fpga_image_info) (interface_list_ : list member)
  : M (Z * list member) :=
  interface <- of_fpga_region_interface_get np info_ ;;
  match interface with
  | PTR p => ret (0%Z, list_add (Interface p) interface_list_)
  | ERR_PTR _ =>
      bridge <- (log (CallBridgeGet np) ;;;
                 external (of_fpga_bridge_get K np info_)) ;;
      match bridge with
      | PTR b => ret (0%Z, list_add (Bridge b) interface_list_)
      | ERR_PTR e => ret (Z.neg e, interface_list_)
      end
  end.

Definition fpga_region_interface_get_to_list (dev : nat)
  (info_ : option fpga_image_info) (interface_list_ : list member)
  : M (Z * list member) :=
  interface <- fpga_region_interface_get dev info_ ;;
  match interface with
  | PTR p => ret (0%Z, list_add (Interface p) interface_list_)
  | ERR_PTR _ =>
      bridge <- (log (CallBridgeGetDev dev) ;;;
                 external (fpga_bridge_get K dev info_)) ;;
      match bridge with
      | PTR b => ret (0%Z, list_add (Bridge b) interface_list_)
      | ERR_PTR e => ret (Z.neg e, interface_list_)
      end
  end.

(** A caller that assembles a list: one
    [of_fpga_region_interface_get_to_list] per node, in the order given,
    until one fails. *)
Fixpoint acquire_in_order (nps : list (option nat))
  (info_ : option fpga_image_info) (interface_list_ : list member)
  : M (Z * list member) :=
  match nps with
  | [] => ret (0%Z, interface_list_)
  | np :: nps' =>
      res <- of_fpga_region_interface_get_to_list np info_ interface_list_ ;;
      if (fst res =? 0)%Z then acquire_in_order nps' info_ (snd res)
      else ret res
  end.

(** [device_unregister(&interface->dev)]: the device leaves its class. *)
Definition device_unregister (p : nat) : M unit :=
  fun w =>
    Some (tt, set_class_devices
                (List.filter (fun q => negb (Nat.eqb q p)) (class_devices w)) w).

Definition fpga_region_interface_unregister (p : nat) : M unit :=
  i <- deref p ;;
  match ops i with
  | Some o =>
      match remove o with
      | Some hook => log (CallRemove p) ;;; external_ (hook (info i))
      | None => ret tt
      end
  | None => ret tt
  end ;;;
  device_unregister p.

(** ** fpga-region-core.c *)

Definition get_region : M fpga_region_core := fun w => Some (region w, w).

Definition put_region (r : fpga_region_core) : M unit :=
  fun w => Some (tt, set_region r w).

Definition fpga_region_core_get : M (err_ptr unit) :=
  r <- get_region ;;
  if region_mutex r then                                  (* mutex_trylock fails *)
    log (RegionDbg "fpga_region_core_get: FPGA Region already in use") ;;;
    ret (ERR_PTR EBUSY)
  else
    put_region (set_region_mutex true r) ;;;
    ok <- external (try_module_get K (region_owner r)) ;;
    if negb ok then
      r <- get_region ;;
      put_region (set_region_mutex false r) ;;;
      ret (ERR_PTR ENODEV)
    else
      log (RegionDbg "get") ;;; ret (PTR tt).

Definition fpga_region_core_put : M unit :=
  log (RegionDbg "put") ;;;
  r <- get_region ;;
  external_ (module_put K (region_owner r)) ;;;
  r <- get_region ;;
  put_region (set_region_mutex false r).

(** Modelled from the spec: the programming engine's non-blocking lock
    ([fpga_mgr_lock] of the kernel's FPGA manager framework, which is not
    part of this repository): it fails Busy when the engine is held and
    takes the lock otherwise. *)
Definition fpga_mgr_lock : M Z :=
  fun w =>
    if mgr_ref_mutex w then Some (Z.neg EBUSY, w)
    else Some (0%Z, set_mgr_ref_mutex true w).

(** Modelled from the spec: the programming engine's unlock
    ([fpga_mgr_unlock] of the kernel's FPGA manager framework). *)
Definition fpga_mgr_unlock : M unit :=
  fun w => Some (tt, set_mgr_ref_mutex false w).

(** [fpga_region_interfaces_*(&region->interface_list)]. *)
Definition region_interfaces_disable : M Z :=
  r <- get_region ;; fpga_region_interfaces_disable (interface_list r).

Definition region_interfaces_enable : M Z :=
  r <- get_region ;; fpga_region_interfaces_enable (interface_list r).

Definition region_interfaces_put : M unit :=
  r <- get_region ;;
  l <- fpga_region_interfaces_put (interface_list r) ;;
  r <- get_region ;;
  put_region (set_interface_list l r).

(** The three exit labels of [fpga_region_core_program_fpga]. *)
Definition err_put_region (r : Z) : M Z :=
  fpga_region_core_put ;;; ret r.

Definition err_unlock_mgr (r : Z) : M Z :=
  fpga_mgr_unlock ;;; err_put_region r.

Definition err_put_br (get_interfaces : option (M Z)) (r : Z) : M Z :=
  match get_interfaces with
  | Some _ => region_interfaces_put
  | None => ret tt
  end ;;;
  err_unlock_mgr r.

Definition fpga_region_core_program_fpga (get_interfaces : option (M Z)) : M Z :=
  r0 <- get_region ;;
  let info_ := region_info r0 in
  got <- fpga_region_core_get ;;
  match got with
  | ERR_PTR e => log (RegionErr "failed to get FPGA region") ;;; ret (Z.neg e)
  | PTR _ =>
      r <- fpga_mgr_lock ;;
      if negb (r =? 0)%Z then
        log (RegionErr "FPGA manager is busy") ;;; err_put_region r
      else
        r <- match get_interfaces with
             | Some resolve => log CallGetInterfaces ;;; resolve
             | None => ret 0%Z
             end ;;
        if negb (r =? 0)%Z then
          log (RegionErr "failed to get fpga region interfaces") ;;;
          err_unlock_mgr r
        else
          r <- region_interfaces_disable ;;
          if negb (r =? 0)%Z then
            log (RegionErr "failed to disable region interfaces") ;;;
            err_put_br get_interfaces r
          else
            r <- (log (CallMgrLoad info_) ;;; external (fpga_mgr_load K info_)) ;;
            if negb (r =? 0)%Z then
              log (RegionErr "failed to load FPGA image") ;;;
              err_put_br get_interfaces r
            else
              r <- region_interfaces_enable ;;
              if negb (r =? 0)%Z then
                log (RegionErr "failed to enable region interfaces") ;;;
                err_put_br get_interfaces r
              else
                fpga_mgr_unlock ;;;
                fpga_region_core_put ;;;
                ret 0%Z
  end.

(** ** fpga-region-manager.c: the device tree resolver *)

(** [of_parse_phandle(np, prop, index)]. *)
Definition of_parse_phandle (np : option nat) (prop : string) (index : nat)
  : option nat :=
  nth_error (phandles K np prop) index.

(** [of_fpga_region_interface_get_to_list(np, info, &region->bridge_list)]. *)
Definition region_get_to_list (np : option nat)
  (info_ : option fpga_image_info) : M Z :=
  r <- get_region ;;
  res <- of_fpga_region_interface_get_to_list np info_ (interface_list r) ;;
  r <- get_region ;;
  put_region (set_interface_list (snd res) r) ;;;
  ret (fst res).

Definition region_interfaces_of_setup (np : option nat) : M Z :=
  r <- get_region ;; fpga_region_interfaces_of_setup (interface_list r) np.

(** The loop [for (i = 0; ; i++)] over [of_parse_phandle(np, "fpga-bridges", i)],
    from the entries not yet read; it ends at the first index that does
    not resolve.  The result is [- EBUSY] when the function returns from
    inside the loop and [0] when the loop is left by [break]. *)
Fixpoint get_interfaces_loop (refs : list nat) (parent_br : option nat)
  (info_ : option fpga_image_info) : M Z :=
  match refs with
  | [] => ret 0%Z
  | br :: refs' =>
      if bool_decide (Some br = parent_br) then
        get_interfaces_loop refs' parent_br info_
      else
        r <- region_get_to_list (Some br) info_ ;;
        if (r =? Z.neg EBUSY)%Z then
          region_interfaces_put ;;; ret (Z.neg EBUSY)
        else get_interfaces_loop refs' parent_br info_
  end.

Definition fpga_region_manager_get_interfaces : M Z :=
  r <- get_region ;;
  let region_np := region_of_node r in
  let info_ := region_info r in
  r <- region_get_to_list (node_parent K region_np) info_ ;;
  if (r =? Z.neg EBUSY)%Z then ret r
  else
    let parent_br := if (r =? 0)%Z then node_parent K region_np else None in
    image <- (fun w => match info_ with          (* info->overlay *)
                       | Some image => Some (image, w)
                       | None => None
                       end) ;;
    let np := match of_parse_phandle (overlay image) "fpga-bridges" 0 with
              | Some _ => overlay image
              | None => Some region_np
              end in
    r <- get_interfaces_loop (phandles K np "fpga-bridges") parent_br info_ ;;
    if negb (r =? 0)%Z then ret r
    else
      r <- region_interfaces_of_setup (Some region_np) ;;
      if negb (r =? 0)%Z then region_interfaces_put ;;; ret (Z.neg EBUSY)
      else
        r <- region_interfaces_of_setup (overlay image) ;;
        if negb (r =? 0)%Z then region_interfaces_put ;;; ret (Z.neg EBUSY)
        else ret 0%Z.

(** ** Observations on the store and the trace *)

(** [interface->ops && interface->ops->enable_set] and its siblings. *)
Definition enable_set_hook (i : fpga_region_interface) :=
  match ops i with Some o => enable_set o | None => None end.

Definition of_setup_hook (i : fpga_region_interface) :=
  match ops i with Some o => of_setup o | None => None end.

Definition remove_hook (i : fpga_region_interface) :=
  match ops i with Some o => remove o | None => None end.


(** The members on which [dev_dbg(&interface->dev, msg)] was reported, in
    order: the members a list walk has visited. *)
Fixpoint visits (msg : string) (t : list event) : list member :=
  match t with
  | [] => []
  | Dbg m msg' :: t' =>
      if String.eqb msg msg' then m :: visits msg t' else visits msg t'
  | _ :: t' => visits msg t'
  end.

(** A member is held when its mutex is locked. *)
Definition held (w : world) (p : nat) : Prop :=
  exists i, interfaces w !! p = Some i /\ mutex i = true.

Definition released (w : world) (p : nat) : Prop :=
  exists i, interfaces w !! p = Some i /\ mutex i = false /\ info i = None.

(** What hooks and external services leave alone: the objects of this
    repository.  Only the external state and the trace may differ. *)
Definition same_objects (w w' : world) : Prop :=
  interfaces w' = interfaces w /\ class_devices w' = class_devices w /\
  region w' = region w /\ mgr_ref_mutex w' = mgr_ref_mutex w.

(** A loop body that reports its member under [msg] once, and touches
    nothing but the external state and the trace. *)
Definition reports (msg : string) (body : member -> M Z) : Prop :=
  forall m w r w',
    body m w = Some (r, w') ->
    same_objects w w' /\
    forall msg', visits msg' (trace w') =
                 visits msg' (trace w) ++ (if String.eqb msg' msg then [m] else []).

(** The device [class_find_device_by_of_node] returns for [np]. *)
Definition find_by_of_node (w : world) (np : option nat) : option nat :=
  List.find (fun p => match interfaces w !! p with
                      | Some i => bool_decide (of_node i = np)
                      | None => false
                      end) (class_devices w).

Definition is_interface (m : member) : bool :=
  match m with Interface _ => true | Bridge _ => false end.

(** Every interface on the region's list is held. *)
Definition all_held (w : world) : Prop :=
  forall p, In (Interface p) (interface_list (region w)) -> held w p.

(** [w1] is the store [fpga_region_core_program_fpga] started from [w]
    reaches once it holds the region and the programming engine: both
    locks were free and are now taken, the objects are otherwise as they
    were. *)
Definition locked_from (w w1 : world) : Prop :=
  region_mutex (region w) = false /\ mgr_ref_mutex w = false /\
  region w1 = set_region_mutex true (region w) /\ mgr_ref_mutex w1 = true /\
  interfaces w1 = interfaces w /\ class_devices w1 = class_devices w.

(** [w2] is the store when the interface list of the region is settled:
    what a successful [get_interfaces] left, called under both locks, or
    the locked store itself for a region without [get_interfaces]. *)
Definition resolved_from (get_interfaces : option (M Z)) (w w2 : world) : Prop :=
  match get_interfaces with
  | Some resolve =>
      exists w1, locked_from w w1 /\ resolve w1 = Some (0%Z, w2)
  | None => locked_from w w2
  end.

(** Every interface pointer of a list designates an object. *)
Definition valid_list (w : world) (l : list member) : Prop :=
  forall p, In (Interface p) l -> is_Some (interfaces w !! p).

(** ** Readings that the code does not meet *)

(** A failed program call leaves both locks free and the interface list
    fully released, whatever step failed. *)
Definition failure_releases_interface_list (get_interfaces : option (M Z))
  (w : world) : Prop :=
  forall r w',
    fpga_region_core_program_fpga get_interfaces w = Some (r, w') ->
    r <> 0%Z ->
    region_mutex (region w') = false /\ mgr_ref_mutex w' = false /\
    interface_list (region w') = [] /\
    forall p, In (Interface p) (interface_list (region w)) -> ~ held w' p.

(** Releasing a held interface clears its image info, calls the [remove]
    hook when there is one, and frees the interface. *)
Definition put_calls_remove_hook (w : world) (p : nat) : Prop :=
  forall i hook,
    interfaces w !! p = Some i -> mutex i = true ->
    remove_hook i = Some hook ->
    exists w',
      fpga_region_interface_put p w = Some (tt, w') /\
      released w' p /\ In (CallRemove p) (trace w').


End Model.

(** * A board to run the code on

    The board of the repository's Readme, cut down to two clock interfaces
    [fpga-clk0] and [fpga-clk1] under a region node, plus one bridge of the
    legacy framework.  The external state is the journal of what the
    hardware was asked to do. *)

Module Board.

Definition journal := list string.

(** Device tree nodes. *)
Definition region_np : nat := 10.
Definition clk0_np : nat := 11.
Definition clk1_np : nat := 12.
Definition legacy_np : nat := 13.
Definition overlay_np : nat := 20.
Definition overlay_clk0_np : nat := 21.

(** Addresses of the objects. *)
Definition clk0 : nat := 1.
Definition clk1 : nat := 2.
Definition legacy : nat := 3.

Definition image : fpga_image_info :=
  {| firmware_name := "example1.bin"; overlay := Some overlay_np |}.

Definition other_image : fpga_image_info :=
  {| firmware_name := "example2.bin"; overlay := None |}.

(** A kernel whose programming engine answers [load_rc] and whose legacy
    framework knows one bridge, on [legacy_np]. *)
Definition board_kernel (load_rc : Z) : @kernel journal :=
  {| try_module_get := fun m e => (negb (Nat.eqb m 99), e);
     module_put := fun _ e => e;
     of_find_node_by_name := fun np nm =>
       if bool_decide (np = Some overlay_np) && String.eqb nm "fpga-clk0"
       then Some overlay_clk0_np else None;
     node_parent := fun _ => None;
     phandles := fun np prop =>
       if bool_decide (np = Some region_np) && String.eqb prop "fpga-bridges"
       then [clk0_np; clk1_np] else [];
     fpga_mgr_load := fun _ e => (load_rc, e ++ ["load"]);
     fpga_bridge_enable := fun _ e => (0%Z, e ++ ["bridge on"]);
     fpga_bridge_disable := fun _ e => (0%Z, e ++ ["bridge off"]);
     fpga_bridge_put := fun _ e => e ++ ["bridge put"];
     of_fpga_bridge_get := fun np _ e =>
       if bool_decide (np = Some legacy_np) then (PTR legacy, e)
       else (ERR_PTR ENODEV, e);
     fpga_bridge_get := fun _ _ e => (ERR_PTR ENODEV, e) |}.

Definition kernel0 : @kernel journal := board_kernel 0.


(** The hooks of a clock interface; [on_rc] and [off_rc] are what
    [enable_set] answers to [true] and to [false]. *)
Definition clock_ops (label : string) (on_rc off_rc : Z)
  : @fpga_region_interface_ops journal :=
  {| enable_show := None;
     enable_set := Some (fun _ (enable : bool) e =>
       if enable then (on_rc, e ++ [String.append label " on"])
       else (off_rc, e ++ [String.append label " off"]));
     of_setup := Some (fun _ _ e => (0%Z, e ++ [String.append label " setup"]));
     remove := Some (fun _ e => e ++ [String.append label " remove"]) |}.

Definition clock (label : string) (np : nat) (on_rc off_rc : Z) (locked : bool)
  (info_ : option fpga_image_info) : @fpga_region_interface journal :=
  {| name := label; of_node := Some np; parent := np; owner := 0;
     mutex := locked; ops := Some (clock_ops label on_rc off_rc);
     info := info_ |}.

Definition idle_region (l : list member) : fpga_region_core :=
  {| region_of_node := region_np; region_owner := 0; region_mutex := false;
     interface_list := l; region_info := Some image |}.

(** Both clocks free, the region idle with an empty list. *)
Definition idle (on_rc off_rc : Z) : @world journal :=
  {| interfaces := <[clk0 := clock "fpga-clk0" clk0_np on_rc off_rc false None]>
                   (<[clk1 := clock "fpga-clk1" clk1_np 0 0 false None]> ∅);
     class_devices := [clk0; clk1];
     region := idle_region [];
     mgr_ref_mutex := false;
     ext := [];
     trace := [] |}.

(** Both clocks held for [image] and on the list of the region, as a
    creator that populates the list itself leaves them. *)
Definition populated (on_rc off_rc : Z) : @world journal :=
  {| interfaces := <[clk0 := clock "fpga-clk0" clk0_np on_rc off_rc true (Some image)]>
                   (<[clk1 := clock "fpga-clk1" clk1_np 0 0 true (Some image)]> ∅);
     class_devices := [clk0; clk1];
     region := idle_region [Interface clk0; Interface clk1];
     mgr_ref_mutex := false;
     ext := [];
     trace := [] |}.



End Board.

(** * Attachment, lookup of the programming engine, sysfs

    The parts of the three files that surround the program call: the
    registration of an interface with its class, the walk up the device
    tree that finds the programming engine of a region, and the
    [compat_id] attribute.  Memory allocation, the id allocator and the
    platform driver plumbing are not modelled. *)

Definition EINVAL : positive := 22.


(** ** [sprintf] with [%016llx] *)








(** ** fpga-region-core.c: [compat_id_show] *)



(** The events of a trace that call the programming engine. *)
Fixpoint loads (t : list event) : nat :=
  match t with
  | [] => 0
  | CallMgrLoad _ :: t' => S (loads t')
  | _ :: t' => loads t'
  end.

Section Attach.

Context {E : Type}.

(** Services of the driver core and of the device tree that the attachment
    code calls: [device_add_rc] is what [device_add] answers for a device,
    [of_fpga_mgr_get] takes a reference on the programming engine of a
    node. *)
Record platform := {
  device_add_rc : nat -> E -> Z * E;
  of_platform_populate : option nat -> nat -> E -> E;
  of_device_is_compatible : nat -> string -> bool;
  of_fpga_mgr_get : nat -> E -> err_ptr nat * E;
}.

Variable K : @kernel E.
Variable P : platform.

Notation "x <- c ;; k" := (bind c (fun x => k))
  (at level 100, c at next level, right associativity).
Notation "c ;;; k" := (bind c (fun _ => k))
  (at level 100, right associativity).

(** The device [class_find_device] returns for the parent device [dev]
    under [fpga_region_interface_dev_match]. *)
Definition find_by_parent (w : @world E) (dev : nat) : option nat :=
  List.find (fun p => match interfaces w !! p with
                      | Some i => fpga_region_interface_dev_match dev i
                      | None => false
                      end) (class_devices w).

(** Between [w] and [w'] no member was visited under a message other than
    "put" and the programming engine was not called. *)
Definition only_puts (w w' : @world E) : Prop :=
  (forall msg, msg <> "put" ->
     visits msg (trace w') = visits msg (trace w)) /\
  loads (trace w') = loads (trace w).

(** [resolved_from], and up to the call of [get_interfaces] (or up to [w2]
    for a region without it) nothing was visited or loaded. *)
Definition settled_from (get_interfaces : option (@M E Z)) (w w2 : @world E)
  : Prop :=
  match get_interfaces with
  | Some resolve =>
      exists w1, locked_from w w1 /\ only_puts w w1 /\
                 resolve w1 = Some (0%Z, w2)
  | None => locked_from w w2 /\ only_puts w w2
  end.

(** ** fpga-region-interface.c: registration *)

(** [device_add(dev)]: when the driver core accepts the device it joins the
    tail of its class's device list. *)
Definition device_add (p : nat) : M Z :=
  r <- external (device_add_rc P p) ;;
  if (r =? 0)%Z then
    fun w => Some (0%Z, set_class_devices (class_devices w ++ [p]) w)
  else ret r.

(** The [dev_info] message on the parent device is not recorded. *)
Definition fpga_region_interface_register (p : nat) : M Z :=
  i <- deref p ;;
  r <- device_add p ;;
  if negb (r =? 0)%Z then ret r
  else
    external_ (of_platform_populate P (of_node i) p) ;;;
    ret 0%Z.

(** ** fpga-region-manager.c: [fpga_region_manager_get_mgr] *)

(** The loop [while (np)] climbs with [of_get_next_parent]; [fuel] bounds
    the number of nodes it may look at, and the walk is undefined when
    that is not enough. *)
Fixpoint fpga_region_manager_get_mgr (fuel : nat) (np : option nat)
  : M (err_ptr nat) :=
  match fuel with
  | O => fun _ => None
  | S fuel' =>
      match np with
      | None => ret (ERR_PTR EINVAL)
      | Some n =>
          match (if of_device_is_compatible P n "ikwzm,fpga-region-manager"
                 then of_parse_phandle K np "fpga-mgr" 0
                 else None) with
          | Some mgr_node => external (of_fpga_mgr_get P mgr_node)
          | None => fpga_region_manager_get_mgr fuel' (node_parent K n)
          end
      end
  end.

(** [chain] is [np] and its ancestors up to the root, nearest first. *)
Fixpoint is_chain (np : option nat) (chain : list nat) : Prop :=
  match chain with
  | [] => np = None
  | n :: chain' => np = Some n /\ is_chain (node_parent K n) chain'
  end.

(** A node that names the programming engine: it is compatible with the
    region manager and its [fpga-mgr] property resolves. *)
Definition names_mgr (n : nat) : bool :=
  of_device_is_compatible P n "ikwzm,fpga-region-manager" &&
  match of_parse_phandle K (Some n) "fpga-mgr" 0 with
  | Some _ => true
  | None => false
  end.

End Attach.

(** ** A device tree with ancestors *)

Module Tree.

Import Board.

(** [clk0_np] lies under [region_np], which lies under node 5, the root.
    Node 5 and [region_np] are region managers; only node 5 names a
    programming engine, node 7. *)
Definition tree_kernel : @kernel journal :=
  {| try_module_get := fun _ e => (true, e);
     module_put := fun _ e => e;
     of_find_node_by_name := fun _ _ => None;
     node_parent := fun n =>
       if Nat.eqb n clk0_np then Some region_np
       else if Nat.eqb n region_np then Some 5 else None;
     phandles := fun np prop =>
       if bool_decide (np = Some 5) && String.eqb prop "fpga-mgr"
       then [7] else [];
     fpga_mgr_load := fun _ e => (0%Z, e);
     fpga_bridge_enable := fun _ e => (0%Z, e);
     fpga_bridge_disable := fun _ e => (0%Z, e);
     fpga_bridge_put := fun _ e => e;
     of_fpga_bridge_get := fun _ _ e => (ERR_PTR ENODEV, e);
     fpga_bridge_get := fun _ _ e => (ERR_PTR ENODEV, e) |}.

(** The driver core accepts every device but the one at address 9. *)
Definition board_platform : @platform journal :=
  {| device_add_rc := fun p e =>
       if Nat.eqb p 9 then ((-12)%Z, e) else (0%Z, e ++ ["device_add"]);
     of_platform_populate := fun _ _ e => e ++ ["populate"];
     of_device_is_compatible := fun n compat =>
       (Nat.eqb n 5 || Nat.eqb n region_np) &&
       String.eqb compat "ikwzm,fpga-region-manager";
     of_fpga_mgr_get := fun n e =>
       if Nat.eqb n 7 then (PTR 70, e ++ ["mgr get"]) else (ERR_PTR ENODEV, e) |}.

(** The idle board before its clocks are registered. *)
Definition unregistered : @world journal :=
  set_class_devices [] (idle 0 0).

(** A kernel like [kernel0] whose programming engine always fails. *)
Definition failing_engine : @kernel journal := board_kernel (-5).

(** A kernel like [kernel0] whose region node also refers to the legacy
    bridge, which the legacy framework reports as in use. *)
Definition busy_bridge_kernel : @kernel journal :=
  {| try_module_get := try_module_get kernel0;
     module_put := module_put kernel0;
     of_find_node_by_name := of_find_node_by_name kernel0;
     node_parent := node_parent kernel0;
     phandles := fun np prop =>
       if bool_decide (np = Some region_np) && String.eqb prop "fpga-bridges"
       then [clk0_np; clk1_np; legacy_np] else [];
     fpga_mgr_load := fpga_mgr_load kernel0;
     fpga_bridge_enable := fpga_bridge_enable kernel0;
     fpga_bridge_disable := fpga_bridge_disable kernel0;
     fpga_bridge_put := fpga_bridge_put kernel0;
     of_fpga_bridge_get := fun np _ e =>
       if bool_decide (np = Some legacy_np) then (ERR_PTR EBUSY, e)
       else (ERR_PTR ENODEV, e);
     fpga_bridge_get := fpga_bridge_get kernel0 |}.

End Tree.

(** * Properties *)

Section Facts.

Context {E : Type} (K : @kernel E).

Local Abbreviation world := (@world E).
Local Abbreviation M := (@M E).

(** ** Stepping through computations *)

Lemma bind_Some {A B} (c : M A) (k : A -> M B) w a w1 :
  c w = Some (a, w1) -> bind c k w = k a w1.
Proof. intros H. unfold bind. now rewrite H. Qed.

Lemma bind_inv {A B} (c : M A) (k : A -> M B) w b w' :
  bind c k w = Some (b, w') ->
  exists a w1, c w = Some (a, w1) /\ k a w1 = Some (b, w').
Proof.
  unfold bind. destruct (c w) as [[a w1]|] eqn:Hc; [|discriminate].
  intros H. now exists a, w1.
Qed.

Lemma trace_snoc2 (t : list event) a b : (t ++ [a]) ++ [b] = t ++ [a; b].
Proof. now rewrite <- app_assoc. Qed.

(** ** A single interface *)

(** C9. For an interface of the region interface class,
    [fpga_region_interface_enable] and [fpga_region_interface_disable] call
    the [enable_set] hook when [ops] and the hook are present, with [true]
    respectively [false], and return what the hook returns; when [ops] or
    the hook is absent they return 0 and neither call anything nor change
    any state (the debug message apart). *)
Theorem interface_enable_disable_hook (w : world) (p : nat)
  (i : fpga_region_interface) :
  interfaces w !! p = Some i ->
  (forall hook, enable_set_hook i = Some hook ->
     fpga_region_interface_enable K (Interface p) w =
       Some (fst (hook (info i) true (ext w)),
             set_ext (snd (hook (info i) true (ext w)))
               (set_trace (trace w ++ [Dbg (Interface p) "enable";
                                       CallEnableSet p true]) w)) /\
     fpga_region_interface_disable K (Interface p) w =
       Some (fst (hook (info i) false (ext w)),
             set_ext (snd (hook (info i) false (ext w)))
               (set_trace (trace w ++ [Dbg (Interface p) "disable";
                                       CallEnableSet p false]) w))) /\
  (enable_set_hook i = None ->
     fpga_region_interface_enable K (Interface p) w =
       Some (0%Z, set_trace (trace w ++ [Dbg (Interface p) "enable"]) w) /\
     fpga_region_interface_disable K (Interface p) w =
       Some (0%Z, set_trace (trace w ++ [Dbg (Interface p) "disable"]) w)).
Proof.
  intros Hp. unfold enable_set_hook.
  unfold fpga_region_interface_enable, fpga_region_interface_disable.
  unfold bind, log, deref, external, ret; simpl. rewrite Hp.
  split.
  - intros hook Hh. destruct (ops i) as [o|]; [|discriminate].
    rewrite Hh. simpl.
    destruct (hook (info i) true (ext w)) as [r1 e1].
    destruct (hook (info i) false (ext w)) as [r2 e2]. simpl.
    unfold set_ext, set_trace; simpl. rewrite !trace_snoc2. auto.
  - intros Hh. destruct (ops i) as [o|]; [rewrite Hh|]; auto.
Qed.

(** C8. [fpga_region_interface_of_setup] calls the [of_setup] hook exactly
    when the hook is defined and the device tree lookup by the interface's
    name finds a node; the hook receives that node and its result is
    returned.  Without a hook, without such a node, and for a member that
    is not of the region interface class, it returns 0 and calls nothing. *)
Theorem interface_of_setup_hook (w : world) (p : nat)
  (i : fpga_region_interface) (np : option nat) :
  interfaces w !! p = Some i ->
  (forall hook node,
     of_setup_hook i = Some hook ->
     of_find_node_by_name K np (name i) = Some node ->
     fpga_region_interface_of_setup K (Interface p) np w =
       Some (fst (hook (info i) node (ext w)),
             set_ext (snd (hook (info i) node (ext w)))
               (set_trace (trace w ++ [Dbg (Interface p) "setup";
                                       CallOfSetup p node]) w))) /\
  (of_setup_hook i = None \/ of_find_node_by_name K np (name i) = None ->
     fpga_region_interface_of_setup K (Interface p) np w =
       Some (0%Z, set_trace (trace w ++ [Dbg (Interface p) "setup"]) w)) /\
  (forall b,
     fpga_region_interface_of_setup K (Bridge b) np w =
       Some (0%Z, set_trace (trace w ++ [Dbg (Bridge b) "setup"]) w)).
Proof.
  intros Hp. unfold of_setup_hook, fpga_region_interface_of_setup.
  unfold bind, log, deref, external, ret; simpl. rewrite Hp.
  split; [|split].
  - intros hook node Hh Hn. destruct (ops i) as [o|]; [|discriminate].
    rewrite Hh, Hn. simpl.
    destruct (hook (info i) node (ext w)) as [r1 e1]. simpl.
    unfold set_ext, set_trace; simpl. now rewrite trace_snoc2.
  - intros [Hh|Hn].
    + destruct (ops i) as [o|]; [rewrite Hh|]; auto.
    + destruct (ops i) as [o|]; auto. destruct (of_setup o); auto.
      now rewrite Hn.
  - auto.
Qed.

(** ** Walking a list *)

Lemma list_for_each_entry_app (body : member -> M Z) l1 l2 w w1 :
  list_for_each_entry body l1 w = Some (0%Z, w1) ->
  list_for_each_entry body (l1 ++ l2) w = list_for_each_entry body l2 w1.
Proof.
  revert w. induction l1 as [|a l1 IH]; intros w H; cbn in *.
  - unfold ret in H. now inversion H.
  - unfold bind in *. destruct (body a w) as [[r w2]|]; [|discriminate].
    destruct (r =? 0)%Z eqn:Hr; [now apply IH|].
    unfold ret in H. inversion H; subst. discriminate.
Qed.

Lemma list_for_each_entry_fail (body : member -> M Z) m l w r w2 :
  body m w = Some (r, w2) -> r <> 0%Z ->
  list_for_each_entry body (m :: l) w = Some (r, w2).
Proof.
  intros Hb Hr. cbn. unfold bind. rewrite Hb.
  apply Z.eqb_neq in Hr. now rewrite Hr.
Qed.

Lemma list_for_each_entry_abort (body : member -> M Z) l1 m l2 w w1 r w2 :
  list_for_each_entry body l1 w = Some (0%Z, w1) ->
  body m w1 = Some (r, w2) -> r <> 0%Z ->
  list_for_each_entry body (l1 ++ m :: l2) w = Some (r, w2).
Proof.
  intros H1 Hb Hr. rewrite (list_for_each_entry_app _ _ _ _ _ H1).
  now apply list_for_each_entry_fail.
Qed.

Lemma list_for_each_entry_nonzero (body : member -> M Z) l w r w' :
  list_for_each_entry body l w = Some (r, w') -> r <> 0%Z ->
  exists l1 m l2 w1,
    l = l1 ++ m :: l2 /\
    list_for_each_entry body l1 w = Some (0%Z, w1) /\
    body m w1 = Some (r, w').
Proof.
  revert w. induction l as [|a l IH]; intros w H Hr; cbn in H.
  - unfold ret in H. inversion H; subst. now destruct Hr.
  - unfold bind in H. destruct (body a w) as [[r1 w1]|] eqn:Hb; [|discriminate].
    destruct (r1 =? 0)%Z eqn:Hr1.
    + apply Z.eqb_eq in Hr1; subst r1.
      destruct (IH _ H Hr) as (l1 & m & l2 & w2 & -> & Hl1 & Hm).
      exists (a :: l1), m, l2, w2. split; [reflexivity|]. split; [|exact Hm].
      cbn. unfold bind. now rewrite Hb.
    + unfold ret in H. inversion H; subst.
      exists [], a, l, w. now repeat split.
Qed.

(** ** Frame and visit order of the walks *)

Lemma same_objects_refl (w : world) : same_objects w w.
Proof. now repeat split. Qed.

Lemma same_objects_trans (w1 w2 w3 : world) :
  same_objects w1 w2 -> same_objects w2 w3 -> same_objects w1 w3.
Proof.
  intros (A1 & B1 & C1 & D1) (A2 & B2 & C2 & D2).
  repeat split; congruence.
Qed.

Lemma valid_list_same_objects (w w' : world) l :
  same_objects w w' -> valid_list w l -> valid_list w' l.
Proof. intros (A & _) H p Hp. rewrite A. now apply H. Qed.

Lemma visits_app msg (t1 t2 : list event) :
  visits msg (t1 ++ t2) = visits msg t1 ++ visits msg t2.
Proof.
  induction t1 as [|e t1 IH]; [reflexivity|].
  destruct e; cbn; auto. destruct (String.eqb msg msg0); cbn; now rewrite IH.
Qed.

Ltac walk_step :=
  repeat match goal with
    | H : Some _ = Some _ |- _ => inversion H; subst; clear H
    | H : None = Some _ |- _ => discriminate H
    | H : context [match ?x with _ => _ end] |- _ =>
        let Hx := fresh "Hx" in destruct x eqn:Hx; cbn in H
    end.

Lemma reports_result (msg : string) (m : member) (w w' : world) t :
  same_objects w w' ->
  trace w' = trace w ++ Dbg m msg :: t ->
  (forall msg', visits msg' t = []) ->
  same_objects w w' /\
  forall msg', visits msg' (trace w') =
               visits msg' (trace w) ++ (if String.eqb msg' msg then [m] else []).
Proof.
  intros Hs Ht Hv. split; [exact Hs|]. intros msg'.
  rewrite Ht, visits_app. cbn. rewrite Hv.
  now destruct (String.eqb msg' msg).
Qed.

Lemma interface_enable_reports :
  reports "enable" (fpga_region_interface_enable K).
Proof.
  intros m w r w' H. unfold fpga_region_interface_enable in H.
  unfold bind, log, deref, external, ret in H; cbn in H.
  destruct m as [p|b]; cbn in H; walk_step.
  - apply reports_result with (t := [CallEnableSet p true]);
      [now repeat split | cbn; now rewrite <- app_assoc | reflexivity].
  - apply reports_result with (t := []); [now repeat split | reflexivity | reflexivity].
  - apply reports_result with (t := []); [now repeat split | reflexivity | reflexivity].
  - apply reports_result with (t := [CallBridgeEnable b]);
      [now repeat split | cbn; now rewrite <- app_assoc | reflexivity].
Qed.

Lemma interface_disable_reports :
  reports "disable" (fpga_region_interface_disable K).
Proof.
  intros m w r w' H. unfold fpga_region_interface_disable in H.
  unfold bind, log, deref, external, ret in H; cbn in H.
  destruct m as [p|b]; cbn in H; walk_step.
  - apply reports_result with (t := [CallEnableSet p false]);
      [now repeat split | cbn; now rewrite <- app_assoc | reflexivity].
  - apply reports_result with (t := []); [now repeat split | reflexivity | reflexivity].
  - apply reports_result with (t := []); [now repeat split | reflexivity | reflexivity].
  - apply reports_result with (t := [CallBridgeDisable b]);
      [now repeat split | cbn; now rewrite <- app_assoc | reflexivity].
Qed.

Lemma interface_of_setup_reports np :
  reports "setup" (fun m => fpga_region_interface_of_setup K m np).
Proof.
  intros m w r w' H. unfold fpga_region_interface_of_setup in H.
  unfold bind, log, deref, external, ret in H; cbn in H.
  destruct m as [p|b]; cbn in H; walk_step;
    try (apply reports_result with (t := []);
         [now repeat split | reflexivity | reflexivity]).
  apply reports_result with (t := [CallOfSetup p n]);
    [now repeat split | cbn; now rewrite <- app_assoc | reflexivity].
Qed.

Lemma walk_same_objects msg (body : member -> M Z) l w r w' :
  reports msg body ->
  list_for_each_entry body l w = Some (r, w') -> same_objects w w'.
Proof.
  intros Hb. revert w. induction l as [|a l IH]; intros w H; cbn in H.
  - unfold ret in H. inversion H; subst. apply same_objects_refl.
  - unfold bind in H. destruct (body a w) as [[r1 w1]|] eqn:Ha; [|discriminate].
    destruct (Hb _ _ _ _ Ha) as [Hs _].
    destruct (r1 =? 0)%Z.
    + eapply same_objects_trans; [exact Hs|]. now apply IH.
    + unfold ret in H. now inversion H; subst.
Qed.

Lemma walk_visits msg (body : member -> M Z) l w w' :
  reports msg body ->
  list_for_each_entry body l w = Some (0%Z, w') ->
  visits msg (trace w') = visits msg (trace w) ++ l.
Proof.
  intros Hb. revert w. induction l as [|a l IH]; intros w H; cbn in H.
  - unfold ret in H. inversion H; subst. now rewrite app_nil_r.
  - unfold bind in H. destruct (body a w) as [[r1 w1]|] eqn:Ha; [|discriminate].
    destruct (Hb _ _ _ _ Ha) as [_ Hv].
    destruct (r1 =? 0)%Z eqn:Hr.
    + rewrite (IH _ H), Hv, String.eqb_refl, <- app_assoc. reflexivity.
    + unfold ret in H. inversion H; subst. discriminate.
Qed.

Lemma walk_defined msg (body : member -> M Z) l w :
  reports msg body ->
  (forall m w, valid_list w [m] -> is_Some (body m w)) ->
  valid_list w l -> is_Some (list_for_each_entry body l w).
Proof.
  intros Hb Hd. revert w. induction l as [|a l IH]; intros w Hv; cbn.
  - now eexists.
  - unfold bind.
    destruct (Hd a w) as [[r1 w1] Ha].
    { intros p [Hp|[]]. apply Hv. now left. }
    rewrite Ha. destruct (Hb _ _ _ _ Ha) as [Hs _].
    destruct (r1 =? 0)%Z; [|now eexists].
    apply IH. eapply valid_list_same_objects; [exact Hs|].
    intros p Hp. apply Hv. now right.
Qed.

(** C6. [fpga_region_interfaces_enable] and [fpga_region_interfaces_disable]
    stop at the first member of their walk whose operation fails: the
    result is that member's error code, the store is the one that member's
    operation left, and the members visited are those before it in the
    walk and itself, none of the remaining ones.  A result other than 0
    always comes from such a member, so when every member succeeds the
    result is 0; on the empty list both return 0 and change nothing. *)
Theorem interfaces_enable_disable_abort_on_first_failure :
  (forall l1 m l2 (w w1 w2 : world) r,
     fpga_region_interfaces_enable K l1 w = Some (0%Z, w1) ->
     fpga_region_interface_enable K m w1 = Some (r, w2) -> r <> 0%Z ->
     fpga_region_interfaces_enable K (l1 ++ m :: l2) w = Some (r, w2) /\
     visits "enable" (trace w2) = visits "enable" (trace w) ++ l1 ++ [m]) /\
  (forall l1 m l2 (w w1 w2 : world) r,
     fpga_region_interfaces_disable K l2 w = Some (0%Z, w1) ->
     fpga_region_interface_disable K m w1 = Some (r, w2) -> r <> 0%Z ->
     fpga_region_interfaces_disable K (l1 ++ m :: l2) w = Some (r, w2) /\
     visits "disable" (trace w2) = visits "disable" (trace w) ++ rev l2 ++ [m]) /\
  (forall l (w w' : world) r,
     fpga_region_interfaces_enable K l w = Some (r, w') -> r <> 0%Z ->
     exists l1 m l2 w1,
       l = l1 ++ m :: l2 /\
       fpga_region_interfaces_enable K l1 w = Some (0%Z, w1) /\
       fpga_region_interface_enable K m w1 = Some (r, w')) /\
  (forall l (w w' : world) r,
     fpga_region_interfaces_disable K l w = Some (r, w') -> r <> 0%Z ->
     exists l1 m l2 w1,
       l = l1 ++ m :: l2 /\
       fpga_region_interfaces_disable K l2 w = Some (0%Z, w1) /\
       fpga_region_interface_disable K m w1 = Some (r, w')) /\
  (forall w : world,
     fpga_region_interfaces_enable K [] w = Some (0%Z, w) /\
     fpga_region_interfaces_disable K [] w = Some (0%Z, w)).
Proof.
  unfold fpga_region_interfaces_enable, fpga_region_interfaces_disable,
    list_for_each_entry_reverse.
  split; [|split; [|split; [|split]]].
  - intros l1 m l2 w w1 w2 r H1 Hm Hr. split.
    + eapply list_for_each_entry_abort; eauto.
    + destruct (interface_enable_reports _ _ _ _ Hm) as [_ Hv].
      rewrite Hv, (walk_visits _ _ _ _ _ interface_enable_reports H1).
      cbn. now rewrite <- app_assoc.
  - intros l1 m l2 w w1 w2 r H1 Hm Hr. split.
    + rewrite rev_app_distr. cbn [rev]. rewrite <- app_assoc. cbn [app].
      eapply list_for_each_entry_abort; eauto.
    + destruct (interface_disable_reports _ _ _ _ Hm) as [_ Hv].
      rewrite Hv, (walk_visits _ _ _ _ _ interface_disable_reports H1).
      cbn. now rewrite <- app_assoc.
  - intros l w w' r H Hr. now apply list_for_each_entry_nonzero.
  - intros l w w' r H Hr.
    destruct (list_for_each_entry_nonzero _ _ _ _ _ H Hr)
      as (l1 & m & l2 & w1 & Hl & H1 & Hm).
    exists (rev l2), m, (rev l1), w1. split; [|split; [|exact Hm]].
    + rewrite <- (rev_involutive l), Hl, rev_app_distr. cbn [rev].
      now rewrite <- app_assoc.
    + now rewrite rev_involutive.
  - intros w. split; reflexivity.
Qed.

(** ** Acquiring and releasing one interface *)

Ltac run :=
  unfold bind, ret, log, deref, store, external, external_; cbn.

Lemma interface_get_busy (w : world) p i info' :
  interfaces w !! p = Some i -> mutex i = true ->
  __fpga_region_interface_get K p info' w =
    Some (ERR_PTR EBUSY,
          set_interfaces (<[p := set_info info' i]> (interfaces w)) w).
Proof.
  intros Hp Hm. unfold __fpga_region_interface_get, write_info, mutex_trylock.
  run. rewrite Hp. cbn. rewrite lookup_insert_eq. cbn. rewrite Hm. reflexivity.
Qed.

Lemma interface_get_free (w : world) p i info' :
  interfaces w !! p = Some i -> mutex i = false ->
  __fpga_region_interface_get K p info' w =
    let '(ok, e) := try_module_get K (owner i) (ext w) in
    if ok then
      Some (PTR p,
            set_trace (trace w ++ [Dbg (Interface p) "get"])
              (set_ext e
                 (set_interfaces
                    (<[p := set_mutex true (set_info info' i)]> (interfaces w)) w)))
    else
      Some (ERR_PTR ENODEV,
            set_ext e
              (set_interfaces (<[p := set_info info' i]> (interfaces w)) w)).
Proof.
  intros Hp Hm.
  unfold __fpga_region_interface_get, write_info, mutex_trylock, mutex_unlock.
  run. rewrite Hp. cbn. rewrite lookup_insert_eq. cbn. rewrite Hm. cbn.
  rewrite lookup_insert_eq. cbn.
  destruct (try_module_get K (owner i) (ext w)) as [[|] e]; cbn.
  - unfold set_trace, set_ext, set_interfaces; cbn.
    now rewrite insert_insert_eq.
  - rewrite lookup_insert_eq. cbn.
    unfold set_trace, set_ext, set_interfaces; cbn.
    rewrite !insert_insert_eq.
    replace (set_mutex false (set_mutex true (set_info info' i)))
      with (set_info info' i); [reflexivity|].
    unfold set_mutex, set_info; cbn. now rewrite Hm.
Qed.

Lemma interface_put_result (w : world) p i :
  interfaces w !! p = Some i ->
  fpga_region_interface_put K p w =
    Some (tt,
          set_interfaces (<[p := set_mutex false (set_info None i)]> (interfaces w))
            (set_ext (module_put K (owner i) (ext w))
               (set_trace (trace w ++ [Dbg (Interface p) "put"]) w))).
Proof.
  intros Hp. unfold fpga_region_interface_put, write_info, mutex_unlock.
  run. rewrite Hp. cbn. repeat (rewrite lookup_insert_eq; cbn).
  unfold set_trace, set_ext, set_interfaces; cbn.
  now rewrite insert_insert_eq.
Qed.

Lemma interface_unregister_result (w : world) p i :
  interfaces w !! p = Some i ->
  fpga_region_interface_unregister p w =
    Some (tt,
          set_class_devices
            (List.filter (fun q => negb (Nat.eqb q p)) (class_devices w))
            match remove_hook i with
            | Some hook =>
                set_ext (hook (info i) (ext w))
                  (set_trace (trace w ++ [CallRemove p]) w)
            | None => w
            end).
Proof.
  intros Hp. unfold fpga_region_interface_unregister, device_unregister, remove_hook.
  run. rewrite Hp.
  destruct (ops i) as [o|]; cbn; [destruct (remove o); cbn|]; reflexivity.
Qed.

(** C7, as the code has it. [fpga_region_interface_put] clears the recorded
    image info and unlocks the mutex, so the interface is free again; it
    calls no hook of the provider (the external state only sees
    [module_put], the trace only the debug message).  The [remove] hook is
    called, when defined, by [fpga_region_interface_unregister], which
    leaves the recorded image info and the mutex as they are. *)
Theorem interface_put_clears_and_unlocks (w : world) (p : nat)
  (i : fpga_region_interface) :
  interfaces w !! p = Some i ->
  (exists w',
     fpga_region_interface_put K p w = Some (tt, w') /\
     released w' p /\
     interfaces w' = <[p := set_mutex false (set_info None i)]> (interfaces w) /\
     ext w' = module_put K (owner i) (ext w) /\
     trace w' = trace w ++ [Dbg (Interface p) "put"]) /\
  (exists w',
     fpga_region_interface_unregister p w = Some (tt, w') /\
     interfaces w' = interfaces w /\
     (forall hook, remove_hook i = Some hook ->
        ext w' = hook (info i) (ext w) /\
        trace w' = trace w ++ [CallRemove p]) /\
     (remove_hook i = None -> ext w' = ext w /\ trace w' = trace w)).
Proof.
  intros Hp. split.
  - eexists. split; [exact (interface_put_result _ _ _ Hp)|]. cbn.
    split; [|now repeat split].
    exists (set_mutex false (set_info None i)). cbn.
    now rewrite lookup_insert_eq.
  - eexists. split; [exact (interface_unregister_result _ _ _ Hp)|]. cbn.
    destruct (remove_hook i) as [hook|]; cbn.
    + split; [reflexivity|]. split; [|discriminate].
      intros hook' [= <-]. now split.
    + split; [reflexivity|]. split; [discriminate|]. now split.
Qed.

(** ** Acquiring through the class and into a list *)

Lemma find_by_of_node_valid (w : world) np p :
  find_by_of_node w np = Some p ->
  exists i, interfaces w !! p = Some i /\ of_node i = np.
Proof.
  unfold find_by_of_node. intros H. apply find_some in H as [_ H].
  destruct (interfaces w !! p) as [i|]; [|discriminate].
  exists i. split; [reflexivity|]. now apply bool_decide_eq_true in H.
Qed.

Lemma of_interface_get_result (w : world) np info_ :
  of_fpga_region_interface_get K np info_ w =
    match find_by_of_node w np with
    | Some p => __fpga_region_interface_get K p info_ w
    | None => Some (ERR_PTR ENODEV, w)
    end.
Proof.
  unfold of_fpga_region_interface_get, class_find_device, find_by_of_node, bind.
  now destruct (List.find _ _).
Qed.

Lemma interface_get_defined (w : world) p i info_ :
  interfaces w !! p = Some i ->
  exists r w1, __fpga_region_interface_get K p info_ w = Some (r, w1).
Proof.
  intros Hp. destruct (mutex i) eqn:Hm.
  - rewrite (interface_get_busy _ _ _ _ Hp Hm). eauto.
  - rewrite (interface_get_free _ _ _ _ Hp Hm).
    destruct (try_module_get K (owner i) (ext w)) as [[|] e]; eauto.
Qed.

Lemma of_interface_get_defined (w : world) np info_ :
  exists r w1, of_fpga_region_interface_get K np info_ w = Some (r, w1).
Proof.
  rewrite of_interface_get_result.
  destruct (find_by_of_node w np) as [p|] eqn:Hf; [|eauto].
  destruct (find_by_of_node_valid _ _ _ Hf) as (i & Hp & _).
  now apply interface_get_defined with (i := i).
Qed.

Lemma get_to_list_links_or_not np info_ l (w : world) :
  exists r w1,
    of_fpga_region_interface_get K np info_ w = Some (r, w1) /\
    of_fpga_region_interface_get_to_list K np info_ l w =
      match r with
      | PTR p => Some ((0%Z, Interface p :: l), w1)
      | ERR_PTR _ =>
          let w2 := set_trace (trace w1 ++ [CallBridgeGet np]) w1 in
          match of_fpga_bridge_get K np info_ (ext w1) with
          | (PTR b, e) => Some ((0%Z, Bridge b :: l), set_ext e w2)
          | (ERR_PTR e2, e) => Some ((Z.neg e2, l), set_ext e w2)
          end
      end.
Proof.
  destruct (of_interface_get_defined w np info_) as (r & w1 & Hr).
  exists r, w1. split; [exact Hr|].
  unfold of_fpga_region_interface_get_to_list.
  rewrite (bind_Some _ _ _ _ _ Hr).
  destruct r as [e1|p]; [|reflexivity].
  unfold bind, log, external, ret, list_add; cbn.
  destruct (of_fpga_bridge_get K np info_ (ext w1)) as [[e2|b] e]; reflexivity.
Qed.

(** C10. [of_fpga_region_interface_get_to_list] first tries the node as a
    region interface; whatever error that attempt gives, Busy included, it
    then tries the node as a bridge of the legacy framework, and when that
    fails too the code returned is the one of the bridge attempt.  So for a
    node whose interface is held (Busy) the caller sees the error of the
    bridge attempt instead. *)
Theorem get_to_list_bridge_fallback np info_ l (w : world) :
  (exists r w1,
     of_fpga_region_interface_get K np info_ w = Some (r, w1) /\
     of_fpga_region_interface_get_to_list K np info_ l w =
       match r with
       | PTR p => Some ((0%Z, Interface p :: l), w1)
       | ERR_PTR _ =>
           let w2 := set_trace (trace w1 ++ [CallBridgeGet np]) w1 in
           match of_fpga_bridge_get K np info_ (ext w1) with
           | (PTR b, e) => Some ((0%Z, Bridge b :: l), set_ext e w2)
           | (ERR_PTR e2, e) => Some ((Z.neg e2, l), set_ext e w2)
           end
       end) /\
  (forall p i e2 e,
     find_by_of_node w np = Some p ->
     interfaces w !! p = Some i -> mutex i = true ->
     of_fpga_bridge_get K np info_ (ext w) = (ERR_PTR e2, e) ->
     exists w1 w2,
       of_fpga_region_interface_get K np info_ w = Some (ERR_PTR EBUSY, w1) /\
       of_fpga_region_interface_get_to_list K np info_ l w =
         Some ((Z.neg e2, l), w2)).
Proof.
  split; [apply get_to_list_links_or_not|].
  intros p i e2 e Hf Hp Hm Hb.
  assert (Hr : of_fpga_region_interface_get K np info_ w =
               Some (ERR_PTR EBUSY,
                     set_interfaces (<[p := set_info info_ i]> (interfaces w)) w)).
  { rewrite of_interface_get_result, Hf. now apply interface_get_busy. }
  eexists _, _. split; [exact Hr|].
  unfold of_fpga_region_interface_get_to_list.
  rewrite (bind_Some _ _ _ _ _ Hr).
  unfold bind, log, external, ret, list_add; cbn. rewrite Hb. reflexivity.
Qed.

Lemma interface_get_trace (w w1 : world) p info_ r :
  __fpga_region_interface_get K p info_ w = Some (r, w1) ->
  match r with
  | PTR q => q = p /\ trace w1 = trace w ++ [Dbg (Interface p) "get"]
  | ERR_PTR _ => trace w1 = trace w
  end.
Proof.
  destruct (interfaces w !! p) as [i|] eqn:Hp.
  - destruct (mutex i) eqn:Hm.
    + rewrite (interface_get_busy _ _ _ _ Hp Hm). now intros [= <- <-].
    + rewrite (interface_get_free _ _ _ _ Hp Hm).
      destruct (try_module_get K (owner i) (ext w)) as [[|] e];
        intros [= <- <-]; cbn; auto.
  - unfold __fpga_region_interface_get, write_info. run. now rewrite Hp.
Qed.

(** [list_add]: a successful acquisition puts the new member in front of
    the list, and an acquired interface is reported under "get". *)
Lemma get_to_list_links_at_head np info_ l (w w' : world) l' :
  of_fpga_region_interface_get_to_list K np info_ l w = Some ((0%Z, l'), w') ->
  exists m,
    l' = m :: l /\
    visits "get" (trace w') =
      visits "get" (trace w) ++ (if is_interface m then [m] else []).
Proof.
  intros H.
  destruct (get_to_list_links_or_not np info_ l w) as (r & w1 & Hr & Hl).
  rewrite Hl in H. clear Hl.
  rewrite of_interface_get_result in Hr.
  assert (Ht : match r with
               | PTR q => trace w1 = trace w ++ [Dbg (Interface q) "get"]
               | ERR_PTR _ => trace w1 = trace w
               end).
  { destruct (find_by_of_node w np) as [p|].
    - apply interface_get_trace in Hr. destruct r as [e|q]; [exact Hr|].
      now destruct Hr as [-> Hr].
    - now inversion Hr. }
  destruct r as [e|q].
  - cbn in H.
    destruct (of_fpga_bridge_get K np info_ (ext w1)) as [[e2|b] e'];
      inversion H; subst; clear H.
    exists (Bridge b). split; [reflexivity|]. cbn.
    rewrite Ht, visits_app. cbn. now rewrite !app_nil_r.
  - inversion H; subst; clear H.
    exists (Interface q). split; [reflexivity|]. cbn.
    rewrite Ht, visits_app. reflexivity.
Qed.

(** The list a caller assembles is the reverse of its acquisitions. *)
Lemma acquire_in_order_reverses nps info_ : forall l (w w' : world) l',
  acquire_in_order K nps info_ l w = Some ((0%Z, l'), w') ->
  exists acquired,
    length acquired = length nps /\
    l' = rev acquired ++ l /\
    visits "get" (trace w') =
      visits "get" (trace w) ++ List.filter is_interface acquired.
Proof.
  induction nps as [|np nps IH]; intros l w w' l' H; cbn in H.
  - unfold ret in H. inversion H; subst.
    exists []. cbn. now rewrite app_nil_r.
  - apply bind_inv in H as ([r1 l1] & w1 & H1 & H). cbn in H.
    destruct (r1 =? 0)%Z eqn:Hr1.
    + apply Z.eqb_eq in Hr1; subst r1.
      destruct (get_to_list_links_at_head _ _ _ _ _ _ H1) as (m & -> & Hv1).
      destruct (IH _ _ _ _ H) as (acq & Hlen & -> & Hv).
      exists (m :: acq). split; [cbn; congruence|]. split.
      * cbn. now rewrite <- app_assoc.
      * rewrite Hv, Hv1, <- app_assoc. cbn.
        now destruct (is_interface m).
    + unfold ret in H. inversion H; subst. discriminate.
Qed.

(** In general: for a list assembled from the empty list out of region
    interfaces, [fpga_region_interfaces_enable] visits the members in the
    reverse of the order in which they were acquired, and
    [fpga_region_interfaces_disable] in the order of acquisition. *)
Lemma enable_order_reverses_acquisition nps info_ (w w1 : world) l :
  acquire_in_order K nps info_ [] w = Some ((0%Z, l), w1) ->
  forallb is_interface l = true ->
  visits "get" (trace w) = [] ->
  l = rev (visits "get" (trace w1)) /\
  (forall w2,
     fpga_region_interfaces_enable K l w1 = Some (0%Z, w2) ->
     visits "enable" (trace w2) =
       visits "enable" (trace w1) ++ rev (visits "get" (trace w1))) /\
  (forall w3,
     fpga_region_interfaces_disable K l w1 = Some (0%Z, w3) ->
     visits "disable" (trace w3) =
       visits "disable" (trace w1) ++ visits "get" (trace w1)).
Proof.
  intros Hacq Hall Hempty.
  destruct (acquire_in_order_reverses _ _ _ _ _ _ Hacq) as (acq & _ & Hl & Hv).
  rewrite app_nil_r in Hl. rewrite Hempty in Hv. cbn in Hv.
  assert (Hf : List.filter is_interface acq = acq).
  { apply forallb_filter_id. rewrite <- (rev_involutive acq).
    rewrite forallb_forall in *. intros m Hm. apply Hall.
    rewrite Hl. now apply in_rev in Hm. }
  rewrite Hf in Hv. rewrite Hv. split; [exact Hl|]. split.
  - intros w2 H. rewrite <- Hl.
    exact (walk_visits _ _ _ _ _ interface_enable_reports H).
  - intros w3 H. unfold fpga_region_interfaces_disable,
      list_for_each_entry_reverse in H.
    rewrite (walk_visits _ _ _ _ _ interface_disable_reports H).
    now rewrite Hl, rev_involutive.
Qed.

(** ** Releasing a whole list *)

Lemma interface_put_inv (w w1 : world) p u :
  fpga_region_interface_put K p w = Some (u, w1) ->
  exists i, interfaces w !! p = Some i.
Proof.
  destruct (interfaces w !! p) as [i|] eqn:Hp; [eauto|].
  unfold fpga_region_interface_put, write_info. run. now rewrite Hp.
Qed.

Lemma interfaces_put_result l : forall (w w' : world) l',
  fpga_region_interfaces_put K l w = Some (l', w') ->
  l' = [] /\ region w' = region w /\ mgr_ref_mutex w' = mgr_ref_mutex w /\
  class_devices w' = class_devices w /\
  forall p, In (Interface p) l \/ released w p -> released w' p.
Proof.
  induction l as [|m l IH]; intros w w' l' H; cbn in H.
  - unfold ret in H. inversion H; subst. repeat split; auto.
    intros p [[]|Hr]. exact Hr.
  - apply bind_inv in H as (u & w1 & Hm & H).
    destruct (IH _ _ _ H) as (-> & Hreg & Hmgr & Hcls & Hrel).
    assert (Hstep : region w1 = region w /\ mgr_ref_mutex w1 = mgr_ref_mutex w /\
                    class_devices w1 = class_devices w /\
                    forall p, m = Interface p \/ released w p -> released w1 p).
    { destruct m as [q|b].
      - destruct (interface_put_inv _ _ _ _ Hm) as [i Hq].
        rewrite (interface_put_result _ _ _ Hq) in Hm.
        inversion Hm; subst; clear Hm. cbn. repeat split; auto.
        intros p Hp. destruct (Nat.eq_dec p q) as [->|Hne].
        + exists (set_mutex false (set_info None i)). cbn.
          now rewrite lookup_insert_eq.
        + destruct Hp as [[= ->]|(j & Hj & Hr)]; [congruence|].
          exists j. cbn. rewrite lookup_insert_ne; [now split | congruence].
      - unfold bind, log, external_ in Hm. cbn in Hm.
        inversion Hm; subst; clear Hm. cbn. repeat split; auto.
        intros p [[=]|Hr]. exact Hr. }
    destruct Hstep as (Hreg1 & Hmgr1 & Hcls1 & Hrel1).
    repeat split; try congruence.
    intros p [[->|Hin]|Hr]; apply Hrel.
    + right. apply Hrel1. now left.
    + now left.
    + right. apply Hrel1. now right.
Qed.

Lemma interfaces_put_defined l : forall w : world,
  valid_list w l -> is_Some (fpga_region_interfaces_put K l w).
Proof.
  induction l as [|m l IH]; intros w Hv; cbn.
  - now eexists.
  - unfold bind. destruct m as [q|b].
    + destruct (Hv q) as [i Hq]; [now left|].
      rewrite (interface_put_result _ _ _ Hq). apply IH.
      intros p Hp. cbn. destruct (Nat.eq_dec q p) as [->|Hne].
      * rewrite lookup_insert_eq. now eexists.
      * rewrite lookup_insert_ne; [|exact Hne]. apply Hv. now right.
    + cbn. apply IH. intros p Hp. cbn. apply Hv. now right.
Qed.

(** ** The region: locks and exit labels *)

Lemma core_get_cases (w w1 : world) got :
  fpga_region_core_get K w = Some (got, w1) ->
  interfaces w1 = interfaces w /\ class_devices w1 = class_devices w /\
  mgr_ref_mutex w1 = mgr_ref_mutex w /\
  match got with
  | PTR _ =>
      region_mutex (region w) = false /\
      region w1 = set_region_mutex true (region w)
  | ERR_PTR e =>
      region_mutex (region w1) = region_mutex (region w) /\
      interface_list (region w1) = interface_list (region w)
  end.
Proof.
  unfold fpga_region_core_get, get_region, put_region. run.
  destruct (region_mutex (region w)) eqn:Hm; cbn.
  - intros [= <- <-]. cbn. now repeat split.
  - destruct (try_module_get K (region_owner (region w)) (ext w)) as [[|] e]; cbn;
      intros [= <- <-]; cbn; now repeat split.
Qed.

Lemma core_get_busy (w : world) :
  region_mutex (region w) = true ->
  fpga_region_core_get K w =
    Some (ERR_PTR EBUSY,
          set_trace
            (trace w ++ [RegionDbg "fpga_region_core_get: FPGA Region already in use"])
            w).
Proof.
  intros Hm. unfold fpga_region_core_get, get_region. run. now rewrite Hm.
Qed.

Lemma core_put_result (w : world) :
  exists w',
    fpga_region_core_put K w = Some (tt, w') /\
    region_mutex (region w') = false /\
    interface_list (region w') = interface_list (region w) /\
    interfaces w' = interfaces w /\ mgr_ref_mutex w' = mgr_ref_mutex w.
Proof.
  eexists. unfold fpga_region_core_put, get_region, put_region. run.
  split; [reflexivity|]. cbn. now repeat split.
Qed.

Lemma err_put_region_result r (w : world) :
  exists w',
    err_put_region K r w = Some (r, w') /\
    region_mutex (region w') = false /\
    interface_list (region w') = interface_list (region w) /\
    interfaces w' = interfaces w /\ mgr_ref_mutex w' = mgr_ref_mutex w.
Proof.
  destruct (core_put_result w) as (w' & Hp & Hrest).
  exists w'. split; [|exact Hrest].
  unfold err_put_region. now rewrite (bind_Some _ _ _ _ _ Hp).
Qed.

Lemma err_unlock_mgr_result r (w : world) :
  exists w',
    err_unlock_mgr K r w = Some (r, w') /\
    region_mutex (region w') = false /\
    interface_list (region w') = interface_list (region w) /\
    interfaces w' = interfaces w /\ mgr_ref_mutex w' = false.
Proof.
  destruct (err_put_region_result r (set_mgr_ref_mutex false w))
    as (w' & Hp & Hm & Hl & Hi & Hg).
  exists w'. split; [|now repeat split].
  unfold err_unlock_mgr, bind, fpga_mgr_unlock. exact Hp.
Qed.

Lemma err_put_br_result (gi : option (M Z)) r (w w' : world) x :
  err_put_br K gi r w = Some (x, w') ->
  x = r /\ region_mutex (region w') = false /\ mgr_ref_mutex w' = false /\
  match gi with
  | Some _ =>
      interface_list (region w') = [] /\
      forall p, In (Interface p) (interface_list (region w)) -> released w' p
  | None =>
      interface_list (region w') = interface_list (region w) /\
      interfaces w' = interfaces w
  end.
Proof.
  unfold err_put_br. intros H. apply bind_inv in H as (u & w1 & Hput & H).
  destruct (err_unlock_mgr_result r w1) as (w2 & H2 & Hm & Hl & Hi & Hg).
  rewrite H2 in H. inversion H; subst; clear H.
  repeat split; auto.
  destruct gi as [f|].
  - unfold region_interfaces_put, get_region, put_region in Hput.
    apply bind_inv in Hput as (r0 & w0 & [= <- <-] & Hput).
    apply bind_inv in Hput as (l' & w3 & Hl' & Hput).
    destruct (interfaces_put_result _ _ _ _ Hl') as (-> & Hreg & _ & _ & Hrel).
    cbn in Hput. inversion Hput; subst; clear Hput. cbn in *.
    split; [exact Hl|]. intros p Hp.
    destruct (Hrel p (or_introl Hp)) as (j & Hj & Hr).
    exists j. now rewrite Hi.
  - unfold ret in Hput. inversion Hput; subst. now split.
Qed.

Lemma err_put_br_logged (gi : option (M Z)) r ev (w w' : world) x :
  bind (log ev) (fun _ => err_put_br K gi r) w = Some (x, w') ->
  x = r /\ region_mutex (region w') = false /\ mgr_ref_mutex w' = false /\
  match gi with
  | Some _ =>
      interface_list (region w') = [] /\
      forall p, In (Interface p) (interface_list (region w)) -> released w' p
  | None =>
      interface_list (region w') = interface_list (region w) /\
      interfaces w' = interfaces w
  end.
Proof.
  unfold bind at 1, log. intros H. exact (err_put_br_result _ _ _ _ _ H).
Qed.

Lemma region_walk_same_objects msg (body : member -> M Z)
  (walk : list member -> M Z) (w w' : world) r :
  reports msg body ->
  (forall l, walk l = list_for_each_entry body l \/
             walk l = list_for_each_entry body (rev l)) ->
  bind get_region (fun r => walk (interface_list r)) w = Some (r, w') ->
  same_objects w w'.
Proof.
  intros Hb Hw H. unfold bind, get_region in H.
  destruct (Hw (interface_list (region w))) as [Hl|Hl]; rewrite Hl in H;
    eapply walk_same_objects; eauto.
Qed.

Lemma region_disable_same_objects (w w' : world) r :
  region_interfaces_disable K w = Some (r, w') -> same_objects w w'.
Proof.
  apply region_walk_same_objects with (msg := "disable")
    (body := fpga_region_interface_disable K).
  - apply interface_disable_reports.
  - intros l. now right.
Qed.

Lemma region_enable_same_objects (w w' : world) r :
  region_interfaces_enable K w = Some (r, w') -> same_objects w w'.
Proof.
  apply region_walk_same_objects with (msg := "enable")
    (body := fpga_region_interface_enable K).
  - apply interface_enable_reports.
  - intros l. now left.
Qed.

(** Every way [fpga_region_core_program_fpga] can end. *)
Lemma program_cases (gi : option (M Z)) (w w' : world) r :
  fpga_region_core_program_fpga K gi w = Some (r, w') ->
  (* the region or the programming engine could not be taken *)
  (r <> 0%Z /\
   interfaces w' = interfaces w /\
   interface_list (region w') = interface_list (region w) /\
   mgr_ref_mutex w' = mgr_ref_mutex w /\
   region_mutex (region w') = region_mutex (region w)) \/
  (* get_interfaces failed *)
  (r <> 0%Z /\
   exists resolve w1 w2,
     gi = Some resolve /\ locked_from w w1 /\ resolve w1 = Some (r, w2) /\
     region_mutex (region w') = false /\ mgr_ref_mutex w' = false /\
     interface_list (region w') = interface_list (region w2) /\
     interfaces w' = interfaces w2) \/
  (* disable, load or enable failed *)
  (r <> 0%Z /\
   exists w2,
     resolved_from gi w w2 /\
     region_mutex (region w') = false /\ mgr_ref_mutex w' = false /\
     match gi with
     | Some _ =>
         interface_list (region w') = [] /\
         forall p, In (Interface p) (interface_list (region w2)) -> released w' p
     | None =>
         interface_list (region w') = interface_list (region w2) /\
         interfaces w' = interfaces w2
     end) \/
  (* success *)
  (r = 0%Z /\
   exists w2,
     resolved_from gi w w2 /\
     region_mutex (region w') = false /\ mgr_ref_mutex w' = false /\
     interface_list (region w') = interface_list (region w2) /\
     interfaces w' = interfaces w2).
Proof.
  unfold fpga_region_core_program_fpga. intros H.
  apply bind_inv in H as (r0 & w0 & Hr0 & H).
  unfold get_region in Hr0. inversion Hr0; subst r0 w0; clear Hr0.
  apply bind_inv in H as (got & w1 & Hget & H).
  destruct (core_get_cases _ _ _ Hget) as (Hi1 & Hc1 & Hg1 & Hgot).
  destruct got as [e|[]].
  { (* fpga_region_core_get failed *)
    left. unfold bind, log, ret in H. cbn in H. inversion H; subst; clear H.
    cbn. destruct Hgot as (Hm & Hl). now repeat split. }
  destruct Hgot as (Hfree & Hreg1).
  apply bind_inv in H as (rl & w2 & Hlock & H).
  unfold fpga_mgr_lock in Hlock.
  destruct (mgr_ref_mutex w1) eqn:Hmgr1; inversion Hlock; subst rl w2; clear Hlock.
  { (* the programming engine is busy *)
    left. change (negb (Z.neg EBUSY =? 0)%Z) with true in H. cbn beta iota in H.
    unfold bind at 1, log in H.
    match type of H with err_put_region _ ?r ?w = _ =>
      destruct (err_put_region_result r w) as (w2 & H2 & Hm2 & Hl2 & Hi2 & Hg2)
    end.
    rewrite H2 in H. inversion H; subst; clear H. cbn in *.
    rewrite Hreg1 in Hl2. cbn in Hl2.
    repeat split; try congruence; discriminate. }
  change (negb (0 =? 0)%Z) with false in H. cbn beta iota in H.
  apply bind_inv in H as (rr & w3 & Hres & H).
  assert (Hlocked : forall t,
            locked_from w (set_trace t (set_mgr_ref_mutex true w1))).
  { intros t. unfold locked_from. cbn. repeat split; congruence. }
  destruct (rr =? 0)%Z eqn:Hrr; cbn [negb] in H.
  2:{ (* get_interfaces failed *)
    right; left. apply Z.eqb_neq in Hrr.
    unfold bind at 1, log in H.
    match type of H with err_unlock_mgr _ ?r ?w = _ =>
      destruct (err_unlock_mgr_result r w) as (w4 & H4 & Hm4 & Hl4 & Hi4 & Hg4)
    end.
    rewrite H4 in H. inversion H; subst; clear H. cbn in *.
    split; [exact Hrr|].
    destruct gi as [f|].
    - unfold bind at 1, log in Hres. eexists f, _, w3.
      split; [reflexivity|]. split; [apply Hlocked|]. split; [exact Hres|].
      now repeat split.
    - unfold ret in Hres. inversion Hres; subst. now destruct Hrr. }
  apply Z.eqb_eq in Hrr; subst rr.
  assert (Hresolved : resolved_from gi w w3).
  { destruct gi as [f|]; cbn.
    - unfold bind at 1, log in Hres. eexists. split; [apply Hlocked|exact Hres].
    - unfold ret in Hres. inversion Hres; subst.
      unfold locked_from. cbn. repeat split; congruence. }
  clear Hres.
  apply bind_inv in H as (rd & w4 & Hdis & H).
  destruct (region_disable_same_objects _ _ _ Hdis) as (Hi4 & _ & Hr4 & _).
  destruct (rd =? 0)%Z eqn:Hrd; cbn [negb] in H.
  2:{ (* disable failed *)
    right; right; left. apply Z.eqb_neq in Hrd.
    destruct (err_put_br_logged _ _ _ _ _ _ H) as (-> & Hm & Hg & Hl).
    split; [exact Hrd|]. exists w3. split; [exact Hresolved|].
    split; [exact Hm|]. split; [exact Hg|].
    destruct gi; rewrite <- Hr4; [exact Hl|].
    destruct Hl as [Hl1 Hl2]. split; congruence. }
  apply bind_inv in H as (rm & w5 & Hload & H).
  assert (Hobj5 : interfaces w5 = interfaces w4 /\ region w5 = region w4).
  { unfold bind, log, external in Hload. cbn in Hload.
    destruct (fpga_mgr_load K (region_info (region w)) (ext w4)) as [x e].
    inversion Hload; subst. now split. }
  destruct Hobj5 as [Hi5 Hr5]. clear Hload.
  destruct (rm =? 0)%Z eqn:Hrm; cbn [negb] in H.
  2:{ (* load failed *)
    right; right; left. apply Z.eqb_neq in Hrm.
    destruct (err_put_br_logged _ _ _ _ _ _ H) as (-> & Hm & Hg & Hl).
    split; [exact Hrm|]. exists w3. split; [exact Hresolved|].
    split; [exact Hm|]. split; [exact Hg|].
    destruct gi; rewrite <- Hr4, <- Hr5; [exact Hl|].
    destruct Hl as [Hl1 Hl2]. split; congruence. }
  apply bind_inv in H as (re & w6 & Hen & H).
  destruct (region_enable_same_objects _ _ _ Hen) as (Hi6 & _ & Hr6 & _).
  destruct (re =? 0)%Z eqn:Hre; cbn [negb] in H.
  2:{ (* enable failed *)
    right; right; left. apply Z.eqb_neq in Hre.
    destruct (err_put_br_logged _ _ _ _ _ _ H) as (-> & Hm & Hg & Hl).
    split; [exact Hre|]. exists w3. split; [exact Hresolved|].
    split; [exact Hm|]. split; [exact Hg|].
    destruct gi; rewrite <- Hr4, <- Hr5, <- Hr6; [exact Hl|].
    destruct Hl as [Hl1 Hl2]. split; congruence. }
  (* success *)
  right; right; right.
  unfold bind at 1, fpga_mgr_unlock in H.
  apply bind_inv in H as (u & w7 & Hput & H).
  destruct (core_put_result (set_mgr_ref_mutex false w6))
    as (w8 & H8 & Hm8 & Hl8 & Hi8 & Hg8).
  rewrite H8 in Hput. inversion Hput; subst; clear Hput.
  unfold ret in H. inversion H; subst; clear H. cbn in *.
  split; [reflexivity|]. exists w3. split; [exact Hresolved|].
  repeat split; congruence.
Qed.

(** ** Definedness of the walks *)

Lemma interface_enable_defined m (w : world) :
  valid_list w [m] -> is_Some (fpga_region_interface_enable K m w).
Proof.
  intros Hv. unfold fpga_region_interface_enable. run.
  destruct m as [p|b]; cbn.
  - destruct (Hv p) as [i Hp]; [now left|]. rewrite Hp.
    destruct (ops i) as [o|]; [destruct (enable_set o) as [h|]|]; cbn;
      try (now eexists).
    destruct (h (info i) true (ext w)). now eexists.
  - destruct (fpga_bridge_enable K b (ext w)). now eexists.
Qed.

Lemma interface_disable_defined m (w : world) :
  valid_list w [m] -> is_Some (fpga_region_interface_disable K m w).
Proof.
  intros Hv. unfold fpga_region_interface_disable. run.
  destruct m as [p|b]; cbn.
  - destruct (Hv p) as [i Hp]; [now left|]. rewrite Hp.
    destruct (ops i) as [o|]; [destruct (enable_set o) as [h|]|]; cbn;
      try (now eexists).
    destruct (h (info i) false (ext w)). now eexists.
  - destruct (fpga_bridge_disable K b (ext w)). now eexists.
Qed.

Lemma interface_of_setup_defined m np (w : world) :
  valid_list w [m] -> is_Some (fpga_region_interface_of_setup K m np w).
Proof.
  intros Hv. unfold fpga_region_interface_of_setup. run.
  destruct m as [p|b]; cbn; [|now eexists].
  destruct (Hv p) as [i Hp]; [now left|]. rewrite Hp.
  destruct (ops i) as [o|]; [destruct (of_setup o) as [h|]|]; cbn;
    try (now eexists).
  destruct (of_find_node_by_name K np (name i)) as [node|]; cbn;
    [|now eexists].
  destruct (h (info i) node (ext w)). now eexists.
Qed.

Lemma valid_list_rev (w : world) l : valid_list w l -> valid_list w (rev l).
Proof. intros Hv p Hp. apply Hv. now apply in_rev. Qed.

Lemma interfaces_enable_defined l (w : world) :
  valid_list w l -> is_Some (fpga_region_interfaces_enable K l w).
Proof.
  apply walk_defined with (msg := "enable");
    [apply interface_enable_reports | apply interface_enable_defined].
Qed.

Lemma interfaces_disable_defined l (w : world) :
  valid_list w l -> is_Some (fpga_region_interfaces_disable K l w).
Proof.
  intros Hv. unfold fpga_region_interfaces_disable, list_for_each_entry_reverse.
  apply walk_defined with (msg := "disable");
    [apply interface_disable_reports | apply interface_disable_defined
    | now apply valid_list_rev].
Qed.

Lemma interfaces_of_setup_defined l np (w : world) :
  valid_list w l -> is_Some (fpga_region_interfaces_of_setup K l np w).
Proof.
  apply walk_defined with (msg := "setup");
    [apply interface_of_setup_reports
    | intros m w0; apply interface_of_setup_defined].
Qed.

Lemma all_held_valid (w : world) :
  all_held w -> valid_list w (interface_list (region w)).
Proof. intros Hh p Hp. destruct (Hh p Hp) as (i & Hi & _). now exists i. Qed.

Lemma all_held_same_objects (w w' : world) :
  same_objects w w' -> all_held w -> all_held w'.
Proof.
  intros (Hi & _ & Hr & _) Hh p Hp. rewrite Hr in Hp.
  destruct (Hh p Hp) as (i & Hpi & Hm). exists i. now rewrite Hi.
Qed.

Lemma core_get_defined (w : world) :
  exists got w1, fpga_region_core_get K w = Some (got, w1).
Proof.
  unfold fpga_region_core_get, get_region, put_region. run.
  destruct (region_mutex (region w)); cbn; [now eexists _, _|].
  destruct (try_module_get K (region_owner (region w)) (ext w)) as [[|] e];
    cbn; now eexists _, _.
Qed.

Lemma err_put_br_defined (gi : option (M Z)) r (w : world) :
  valid_list w (interface_list (region w)) ->
  is_Some (err_put_br K gi r w).
Proof.
  intros Hv. unfold err_put_br.
  assert (Hput : exists u w1,
            match gi with
            | Some _ => region_interfaces_put K
            | None => ret tt
            end w = Some (u, w1)).
  { destruct gi; [|now eexists _, _].
    unfold region_interfaces_put, get_region, put_region, bind.
    destruct (interfaces_put_defined _ _ Hv) as [[l w1] ->]. now eexists _, _. }
  destruct Hput as (u & w1 & Hput). rewrite (bind_Some _ _ _ _ _ Hput).
  destruct (err_unlock_mgr_result r w1) as (w2 & -> & _). now eexists.
Qed.

(** A program call is defined as soon as the pointers on the list are
    valid when the walks start: on entry for a region without
    [get_interfaces], on return of [get_interfaces] otherwise. *)
Lemma program_defined (gi : option (M Z)) (w : world) :
  (gi = None -> valid_list w (interface_list (region w))) ->
  (forall resolve w1,
     gi = Some resolve -> locked_from w w1 ->
     exists r w2, resolve w1 = Some (r, w2) /\
                  valid_list w2 (interface_list (region w2))) ->
  is_Some (fpga_region_core_program_fpga K gi w).
Proof.
  intros Hnone Hsome. unfold fpga_region_core_program_fpga.
  unfold bind at 1, get_region.
  destruct (core_get_defined w) as (got & w1 & Hget).
  rewrite (bind_Some _ _ _ _ _ Hget).
  destruct (core_get_cases _ _ _ Hget) as (Hi1 & Hc1 & Hg1 & Hgot).
  destruct got as [e|[]]; [now eexists|].
  destruct Hgot as (Hfree & Hreg1).
  unfold bind at 1, fpga_mgr_lock.
  destruct (mgr_ref_mutex w1) eqn:Hmgr1.
  { change (negb (Z.neg EBUSY =? 0)%Z) with true. cbn beta iota.
    unfold bind at 1, log.
    match goal with |- is_Some (err_put_region _ ?r ?w) =>
      destruct (err_put_region_result r w) as (w2 & -> & _)
    end. now eexists. }
  change (negb (0 =? 0)%Z) with false. cbn beta iota.
  assert (Hlocked : forall t,
            locked_from w (set_trace t (set_mgr_ref_mutex true w1))).
  { intros t. unfold locked_from. cbn. repeat split; congruence. }
  assert (Hres : exists rr w3,
            match gi with
            | Some resolve => bind (log CallGetInterfaces) (fun _ => resolve)
            | None => ret 0%Z
            end (set_mgr_ref_mutex true w1) = Some (rr, w3) /\
            valid_list w3 (interface_list (region w3))).
  { destruct gi as [f|].
    - unfold bind at 1, log.
      match goal with |- context [f ?w0] =>
        destruct (Hsome f w0 eq_refl (Hlocked _)) as (rr & w3 & Hf & Hv)
      end.
      now exists rr, w3.
    - exists 0%Z, (set_mgr_ref_mutex true w1). split; [reflexivity|].
      cbn. rewrite Hreg1. cbn. intros p Hp. cbn. rewrite Hi1. now apply Hnone. }
  destruct Hres as (rr & w3 & Hres & Hv3).
  rewrite (bind_Some _ _ _ _ _ Hres).
  destruct (rr =? 0)%Z; cbn [negb].
  2:{ unfold bind at 1, log.
      match goal with |- is_Some (err_unlock_mgr _ ?r ?w) =>
        destruct (err_unlock_mgr_result r w) as (w4 & -> & _)
      end. now eexists. }
  assert (Hdis : exists rd w4, region_interfaces_disable K w3 = Some (rd, w4)).
  { unfold region_interfaces_disable, bind, get_region.
    destruct (interfaces_disable_defined _ _ Hv3) as [[rd w4] ->].
    now eexists _, _. }
  destruct Hdis as (rd & w4 & Hdis). rewrite (bind_Some _ _ _ _ _ Hdis).
  pose proof (region_disable_same_objects _ _ _ Hdis) as Hs4.
  assert (Hv4 : valid_list w4 (interface_list (region w4))).
  { eapply valid_list_same_objects; [exact Hs4|].
    destruct Hs4 as (_ & _ & Hr4 & _). now rewrite Hr4. }
  destruct (rd =? 0)%Z; cbn [negb].
  2:{ unfold bind at 1, log. now apply err_put_br_defined. }
  unfold bind at 1. unfold bind at 1, log, external. cbn.
  destruct (fpga_mgr_load K (region_info (region w)) (ext w4)) as [rm e5].
  match goal with |- context [set_ext e5 ?w] => set (w5 := set_ext e5 w) end.
  assert (Hv5 : valid_list w5 (interface_list (region w5))) by exact Hv4.
  destruct (rm =? 0)%Z; cbn [negb].
  2:{ unfold bind at 1, log. now apply err_put_br_defined. }
  assert (Hen : exists re w6, region_interfaces_enable K w5 = Some (re, w6)).
  { unfold region_interfaces_enable, bind, get_region.
    destruct (interfaces_enable_defined _ _ Hv5) as [[re w6] ->].
    now eexists _, _. }
  destruct Hen as (re & w6 & Hen). rewrite (bind_Some _ _ _ _ _ Hen).
  pose proof (region_enable_same_objects _ _ _ Hen) as Hs6.
  assert (Hv6 : valid_list w6 (interface_list (region w6))).
  { eapply valid_list_same_objects; [exact Hs6|].
    destruct Hs6 as (_ & _ & Hr6 & _). now rewrite Hr6. }
  destruct (re =? 0)%Z; cbn [negb].
  2:{ unfold bind at 1, log. now apply err_put_br_defined. }
  unfold bind at 1, fpga_mgr_unlock.
  destruct (core_put_result (set_mgr_ref_mutex false w6)) as (w7 & H7 & _).
  rewrite (bind_Some _ _ _ _ _ H7). now eexists.
Qed.

(** ** The device tree resolver keeps the list held *)

Lemma held_insert (w : world) p q i j :
  interfaces w !! p = Some i ->
  (mutex i = true -> mutex j = true) ->
  held w q ->
  held (set_interfaces (<[p := j]> (interfaces w)) w) q.
Proof.
  intros Hp Hm (k & Hk & Hmk). destruct (Nat.eq_dec p q) as [->|Hne].
  - exists j. cbn. rewrite lookup_insert_eq. split; [reflexivity|].
    apply Hm. congruence.
  - exists k. cbn. now rewrite lookup_insert_ne.
Qed.

Lemma interface_get_held (w w1 : world) p info_ res :
  __fpga_region_interface_get K p info_ w = Some (res, w1) ->
  region w1 = region w /\
  (forall q, held w q -> held w1 q) /\
  (forall q, res = PTR q -> held w1 q).
Proof.
  destruct (interfaces w !! p) as [i|] eqn:Hp.
  2:{ unfold __fpga_region_interface_get, write_info. run. now rewrite Hp. }
  destruct (mutex i) eqn:Hm.
  - rewrite (interface_get_busy _ _ _ _ Hp Hm). intros [= <- <-].
    split; [reflexivity|]. split; [|discriminate].
    intros q. now apply held_insert with (i := i).
  - rewrite (interface_get_free _ _ _ _ Hp Hm).
    destruct (try_module_get K (owner i) (ext w)) as [[|] e];
      intros [= <- <-]; (split; [reflexivity|]); split.
    + intros q Hq.
      apply (held_insert w p q i (set_mutex true (set_info info_ i)) Hp) in Hq;
        [|reflexivity].
      destruct Hq as (k & Hk & Hmk). now exists k.
    + intros q [= <-]. exists (set_mutex true (set_info info_ i)). cbn.
      now rewrite lookup_insert_eq.
    + intros q Hq.
      apply (held_insert w p q i (set_info info_ i) Hp) in Hq; [|exact id].
      destruct Hq as (k & Hk & Hmk). now exists k.
    + discriminate.
Qed.

Lemma get_to_list_held np info_ l (w w1 : world) r l' :
  of_fpga_region_interface_get_to_list K np info_ l w = Some ((r, l'), w1) ->
  region w1 = region w /\
  (forall q, held w q -> held w1 q) /\
  (forall p, In (Interface p) l' -> In (Interface p) l \/ held w1 p).
Proof.
  intros H.
  destruct (get_to_list_links_or_not np info_ l w) as (res & w0 & Hres & Hl).
  rewrite Hl in H. clear Hl.
  assert (Hheld : region w0 = region w /\
                  (forall q, held w q -> held w0 q) /\
                  (forall q, res = PTR q -> held w0 q)).
  { rewrite of_interface_get_result in Hres.
    destruct (find_by_of_node w np) as [p|].
    - exact (interface_get_held _ _ _ _ _ Hres).
    - inversion Hres; subst. split; [reflexivity|]. split; [auto|discriminate]. }
  destruct Hheld as (Hr & Hq & Hp).
  destruct res as [e|p].
  - cbn in H.
    destruct (of_fpga_bridge_get K np info_ (ext w0)) as [[e2|b] e'];
      inversion H; subst; clear H; cbn;
      (split; [exact Hr|]); (split; [exact Hq|]).
    + intros p Hin. now left.
    + intros p [[=]|Hin]. now left.
  - inversion H; subst; clear H.
    split; [exact Hr|]. split; [exact Hq|].
    intros q [[= <-]|Hin]; [right; now apply Hp | now left].
Qed.

Lemma region_get_to_list_all_held np info_ (w : world) :
  all_held w ->
  exists r w',
    region_get_to_list K np info_ w = Some (r, w') /\ all_held w'.
Proof.
  intros Hh. unfold region_get_to_list. unfold bind at 1, get_region.
  destruct (get_to_list_links_or_not np info_ (interface_list (region w)) w)
    as (res & w0 & _ & Hl).
  assert (Hdef : exists r l' w1,
            of_fpga_region_interface_get_to_list K np info_
              (interface_list (region w)) w = Some ((r, l'), w1)).
  { rewrite Hl. destruct res as [e|p]; [|now eexists _, _, _]. cbn.
    destruct (of_fpga_bridge_get K np info_ (ext w0)) as [[e2|b] e'];
      now eexists _, _, _. }
  destruct Hdef as (r & l' & w1 & Hget).
  rewrite (bind_Some _ _ _ _ _ Hget).
  destruct (get_to_list_held _ _ _ _ _ _ _ Hget) as (Hr & Hq & Hp).
  eexists _, _. split; [reflexivity|].
  intros p Hin. cbn in Hin.
  destruct (Hp p Hin) as [Hold|Hnew].
  - destruct (Hq p (Hh p Hold)) as (k & Hk & Hmk). now exists k.
  - destruct Hnew as (k & Hk & Hmk). now exists k.
Qed.

Lemma region_interfaces_put_all_held (w : world) :
  all_held w ->
  exists w',
    region_interfaces_put K w = Some (tt, w') /\
    interface_list (region w') = [].
Proof.
  intros Hh. unfold region_interfaces_put. unfold bind at 1, get_region.
  destruct (interfaces_put_defined _ _ (all_held_valid _ Hh)) as [[l w1] Hput].
  rewrite (bind_Some _ _ _ _ _ Hput).
  destruct (interfaces_put_result _ _ _ _ Hput) as (-> & _).
  eexists. split; reflexivity.
Qed.

Lemma all_held_nil (w : world) : interface_list (region w) = [] -> all_held w.
Proof. intros Hl p Hp. rewrite Hl in Hp. destruct Hp. Qed.

Lemma get_interfaces_loop_all_held refs parent_br info_ : forall w : world,
  all_held w ->
  exists r w',
    get_interfaces_loop K refs parent_br info_ w = Some (r, w') /\ all_held w'.
Proof.
  induction refs as [|br refs IH]; intros w Hh; cbn.
  - now exists 0%Z, w.
  - destruct (bool_decide (Some br = parent_br)); [now apply IH|].
    destruct (region_get_to_list_all_held (Some br) info_ w Hh)
      as (r & w1 & Hget & Hh1).
    rewrite (bind_Some _ _ _ _ _ Hget).
    destruct (r =? Z.neg EBUSY)%Z; [|now apply IH].
    destruct (region_interfaces_put_all_held _ Hh1) as (w2 & Hput & Hnil).
    rewrite (bind_Some _ _ _ _ _ Hput).
    eexists _, _. split; [reflexivity|]. now apply all_held_nil.
Qed.

Lemma region_interfaces_of_setup_all_held np (w : world) :
  all_held w ->
  exists r w',
    region_interfaces_of_setup K np w = Some (r, w') /\ all_held w'.
Proof.
  intros Hh. unfold region_interfaces_of_setup, bind, get_region.
  destruct (interfaces_of_setup_defined _ np _ (all_held_valid _ Hh))
    as [[r w1] Hs].
  exists r, w1. split; [exact Hs|].
  eapply all_held_same_objects; [|exact Hh].
  eapply walk_same_objects; [apply (interface_of_setup_reports np)|exact Hs].
Qed.

(** From a store whose listed interfaces are held, and with an image to
    program, [fpga_region_manager_get_interfaces] is defined, and whatever
    it returns, the interfaces on the list it leaves are held. *)
Lemma get_interfaces_all_held (w : world) :
  all_held w -> region_info (region w) <> None ->
  exists r w',
    fpga_region_manager_get_interfaces K w = Some (r, w') /\ all_held w'.
Proof.
  intros Hh Hinfo. unfold fpga_region_manager_get_interfaces.
  unfold bind at 1, get_region.
  destruct (region_get_to_list_all_held
              (node_parent K (region_of_node (region w)))
              (region_info (region w)) w Hh) as (r1 & w1 & H1 & Hh1).
  rewrite (bind_Some _ _ _ _ _ H1).
  destruct (r1 =? Z.neg EBUSY)%Z; [now exists r1, w1|].
  destruct (region_info (region w)) as [image|] eqn:Himage; [|now destruct Hinfo].
  unfold bind at 1.
  match goal with |- context [get_interfaces_loop K ?refs ?pb ?inf] =>
    destruct (get_interfaces_loop_all_held refs pb inf w1 Hh1)
      as (r2 & w2 & H2 & Hh2)
  end.
  rewrite (bind_Some _ _ _ _ _ H2).
  destruct (r2 =? 0)%Z; cbn [negb]; [|now exists r2, w2].
  destruct (region_interfaces_of_setup_all_held
              (Some (region_of_node (region w))) w2 Hh2)
    as (r3 & w3 & H3 & Hh3).
  rewrite (bind_Some _ _ _ _ _ H3).
  destruct (r3 =? 0)%Z; cbn [negb].
  2:{ destruct (region_interfaces_put_all_held _ Hh3) as (w4 & Hput & Hnil).
      rewrite (bind_Some _ _ _ _ _ Hput).
      eexists _, _. split; [reflexivity|]. now apply all_held_nil. }
  destruct (region_interfaces_of_setup_all_held (overlay image) w3 Hh3)
    as (r4 & w4 & H4 & Hh4).
  rewrite (bind_Some _ _ _ _ _ H4).
  destruct (r4 =? 0)%Z; cbn [negb]; [now exists 0%Z, w4|].
  destruct (region_interfaces_put_all_held _ Hh4) as (w5 & Hput & Hnil).
  rewrite (bind_Some _ _ _ _ _ Hput).
  eexists _, _. split; [reflexivity|]. now apply all_held_nil.
Qed.

(** ** The program call *)

Lemma program_region_busy (gi : option (M Z)) (w : world) :
  region_mutex (region w) = true ->
  fpga_region_core_program_fpga K gi w =
    Some (Z.neg EBUSY,
          set_trace
            (trace w ++
             [RegionDbg "fpga_region_core_get: FPGA Region already in use";
              RegionErr "failed to get FPGA region"]) w).
Proof.
  intros Hm. unfold fpga_region_core_program_fpga.
  unfold bind at 1, get_region.
  rewrite (bind_Some _ _ _ _ _ (core_get_busy _ Hm)).
  unfold bind, log, ret, set_trace. cbn. now rewrite trace_snoc2.
Qed.


(** The store in which [get_interfaces] and the hooks run has the region
    locked, so a call made from there finds the region busy. *)
Corollary program_busy_while_in_flight (gi : option (M Z)) (w w1 : world) :
  locked_from w w1 ->
  exists w', fpga_region_core_program_fpga K gi w1 = Some (Z.neg EBUSY, w').
Proof.
  intros (_ & _ & Hr & _). eexists.
  apply program_region_busy. now rewrite Hr.
Qed.


(** With the device tree resolver as [get_interfaces]: from a store whose
    listed interfaces are held, a program call is defined, and after a
    successful one every interface on the region's list is held. *)
Corollary program_with_resolver_all_held (w : world) :
  all_held w -> region_info (region w) <> None ->
  exists r w',
    fpga_region_core_program_fpga K
      (Some (fpga_region_manager_get_interfaces K)) w = Some (r, w') /\
    (r = 0%Z -> all_held w').
Proof.
  intros Hh Hinfo.
  assert (Hlk : forall w1, locked_from w w1 ->
                all_held w1 /\ region_info (region w1) <> None).
  { intros w1 (_ & _ & Hr & _ & Hi & _). split.
    - intros p Hp. rewrite Hr in Hp. cbn in Hp.
      destruct (Hh p Hp) as (i & Hpi & Hm). exists i. now rewrite Hi.
    - now rewrite Hr. }
  destruct (program_defined (Some (fpga_region_manager_get_interfaces K)) w)
    as [[r w'] Hrun].
  - discriminate.
  - intros f w1 [= <-] Hl. destruct (Hlk _ Hl) as [Hh1 Hinfo1].
    destruct (get_interfaces_all_held _ Hh1 Hinfo1) as (r & w2 & Hres & Hh2).
    exists r, w2. split; [exact Hres|]. now apply all_held_valid.
  - exists r, w'. split; [exact Hrun|]. intros ->.
    destruct (program_cases _ _ _ _ Hrun)
      as [(Hr & _)|[(Hr & _)|[(Hr & _)|(_ & w2 & Hres & _ & _ & Hl & Hi)]]];
      try now destruct Hr.
    destruct Hres as (w1 & Hl1 & Hres). destruct (Hlk _ Hl1) as [Hh1 Hinfo1].
    destruct (get_interfaces_all_held _ Hh1 Hinfo1) as (r & w3 & Hres' & Hh3).
    rewrite Hres in Hres'. inversion Hres'; subst r w3.
    intros p Hp. rewrite Hl in Hp.
    destruct (Hh3 p Hp) as (i & Hpi & Hm). exists i. now rewrite Hi.
Qed.

(** C1, as the code has it. When [fpga_region_core_program_fpga], called on
    a free region, returns an error, the region's mutex is free and the
    lock of the programming engine is as before the call.  For a region
    without [get_interfaces] the list and the interfaces are left as they
    were, whatever step failed.  For a region with [get_interfaces]: if
    the region or the engine could not be taken nothing was touched; if
    [get_interfaces] failed the list and the interfaces are what it left;
    if disable, load or enable failed the list is empty and every
    interface that was on it is released. *)
Theorem program_failure_unwinds (gi : option (M Z)) (w w' : world) r :
  region_mutex (region w) = false ->
  fpga_region_core_program_fpga K gi w = Some (r, w') -> r <> 0%Z ->
  region_mutex (region w') = false /\
  mgr_ref_mutex w' = mgr_ref_mutex w /\
  match gi with
  | None =>
      interface_list (region w') = interface_list (region w) /\
      interfaces w' = interfaces w
  | Some resolve =>
      (interface_list (region w') = interface_list (region w) /\
       interfaces w' = interfaces w) \/
      (exists w1 w2,
         locked_from w w1 /\ resolve w1 = Some (r, w2) /\
         interface_list (region w') = interface_list (region w2) /\
         interfaces w' = interfaces w2) \/
      (exists w1 w2,
         locked_from w w1 /\ resolve w1 = Some (0%Z, w2) /\
         interface_list (region w') = [] /\
         forall p, In (Interface p) (interface_list (region w2)) ->
                   released w' p)
  end.
Proof.
  intros Hfree H Hr.
  destruct (program_cases _ _ _ _ H)
    as [(_ & Hi & Hl & Hg & Hm)
       |[(_ & f & w1 & w2 & -> & Hlk & Hf & Hm & Hg & Hl & Hi)
        |[(_ & w2 & Hres & Hm & Hg & Hrest)|(Hr0 & _)]]];
    try now destruct Hr.
  - split; [congruence|]. split; [exact Hg|].
    destruct gi; [left|]; now split.
  - split; [exact Hm|]. split; [destruct Hlk as (_ & -> & _); exact Hg|].
    right; left. exists w1, w2.
    split; [exact Hlk|]. split; [exact Hf|]. now split.
  - split; [exact Hm|].
    destruct gi as [f|]; cbn in Hres.
    + destruct Hres as (w1 & Hlk & Hf).
      split; [destruct Hlk as (_ & -> & _); exact Hg|].
      right; right. exists w1, w2. destruct Hrest as [Hl Hrel].
      split; [exact Hlk|]. split; [exact Hf|]. now split.
    + destruct Hres as (_ & Hg0 & Hr2 & _ & Hi2 & _).
      split; [congruence|]. destruct Hrest as [Hl Hi].
      split; [|congruence]. rewrite Hl, Hr2. reflexivity.
Qed.

End Facts.

(** * The code on the board *)

Section OnTheBoard.

Import Board.

(** C2 on the board. Starting from an empty list, [fpga-clk0] and then
    [fpga-clk1] are acquired with [of_fpga_region_interface_get_to_list].
    [list_add] links each new node right after the head, so the list reads
    [fpga-clk1], [fpga-clk0]: [fpga_region_interfaces_enable] visits
    [fpga-clk1] first and [fpga-clk0] last, the reverse of the acquisition
    order, and [fpga_region_interfaces_disable] visits them in acquisition
    order. *)
Theorem enable_visits_reverse_of_acquisition :
  exists l w1 w2 w3,
    acquire_in_order kernel0 [Some clk0_np; Some clk1_np] (Some image) []
      (idle 0 0) = Some ((0%Z, l), w1) /\
    visits "get" (trace w1) = [Interface clk0; Interface clk1] /\
    l = [Interface clk1; Interface clk0] /\
    fpga_region_interfaces_enable kernel0 l w1 = Some (0%Z, w2) /\
    visits "enable" (trace w2) = [Interface clk1; Interface clk0] /\
    fpga_region_interfaces_disable kernel0 l w1 = Some (0%Z, w3) /\
    visits "disable" (trace w3) = [Interface clk0; Interface clk1].
Proof.
  do 4 eexists.
  split; [vm_compute; reflexivity|].
  split; [vm_compute; reflexivity|].
  split; [reflexivity|].
  split; [vm_compute; reflexivity|].
  split; [vm_compute; reflexivity|].
  split; [vm_compute; reflexivity|].
  vm_compute; reflexivity.
Qed.

(** C5 on the board. [fpga-clk0] is held for [image].  A second
    [__fpga_region_interface_get] with [other_image] fails with [-EBUSY],
    yet the interface now records [other_image]: the assignment to
    [interface->info] precedes [mutex_trylock]. *)
Theorem interface_get_busy_overwrites_info :
  exists w',
    info <$> interfaces (populated 0 0) !! clk0 = Some (Some image) /\
    __fpga_region_interface_get kernel0 clk0 (Some other_image) (populated 0 0)
      = Some (ERR_PTR EBUSY, w') /\
    mutex <$> interfaces w' !! clk0 = Some true /\
    info <$> interfaces w' !! clk0 = Some (Some other_image).
Proof.
  eexists.
  split; [vm_compute; reflexivity|].
  split; [vm_compute; reflexivity|].
  split; vm_compute; reflexivity.
Qed.

Lemma interface_put_on_board :
  exists hook w',
    remove_hook (clock "fpga-clk0" clk0_np 0 0 true (Some image)) = Some hook /\
    hook (Some image) [] = ["fpga-clk0 remove"] /\
    fpga_region_interface_put kernel0 clk0 (populated 0 0) = Some (tt, w') /\
    released w' clk0 /\
    ext w' = [] /\
    trace w' = [Dbg (Interface clk0) "put"].
Proof.
  do 2 eexists.
  split; [reflexivity|].
  split; [reflexivity|].
  split; [vm_compute; reflexivity|].
  split; [eexists; split; [vm_compute; reflexivity|split; reflexivity]|].
  split; reflexivity.
Qed.

(** C7 on the board. [fpga-clk0] is held and its provider defines a [remove]
    hook, which would write to the journal.  Releasing the interface
    clears the image info and frees it, but the journal stays empty and
    the trace holds the debug message only: the hook is not called. *)
Lemma interface_put_does_not_call_remove :
  ~ put_calls_remove_hook kernel0 (populated 0 0) clk0.
Proof.
  intros Hclaim.
  destruct (Hclaim (clock "fpga-clk0" clk0_np 0 0 true (Some image))
              (fun _ e => e ++ ["fpga-clk0 remove"]))
    as (w' & Hput & _ & Hin); try reflexivity.
  destruct interface_put_on_board as (_ & w & _ & _ & Hw & _ & _ & Ht).
  rewrite Hw in Hput. inversion Hput; subst w'. rewrite Ht in Hin.
  destruct Hin as [Hin|[]]. discriminate Hin.
Qed.

Lemma program_on_static_board :
  exists w',
    fpga_region_core_program_fpga kernel0 None (populated 0 (-5))
      = Some ((-5)%Z, w') /\
    region_mutex (region w') = false /\ mgr_ref_mutex w' = false /\
    interface_list (region w') = [Interface clk0; Interface clk1] /\
    held w' clk0 /\ held w' clk1.
Proof.
  eexists.
  split; [vm_compute; reflexivity|].
  split; [reflexivity|]. split; [reflexivity|]. split; [reflexivity|].
  split; eexists; split; vm_compute; reflexivity.
Qed.

(** C1 on the board. The region has no [get_interfaces]; its list holds
    [fpga-clk0] and [fpga-clk1], both held, and disabling [fpga-clk0]
    fails with -5.  The program call returns -5 with both locks free, but
    the list is as before and both interfaces are still held. *)
Lemma program_failure_leaves_static_list_held :
  ~ failure_releases_interface_list kernel0 None (populated 0 (-5)).
Proof.
  intros Hclaim.
  destruct program_on_static_board as (w' & Hrun & _ & _ & _ & Hheld & _).
  destruct (Hclaim _ _ Hrun) as (_ & _ & _ & Hfree); [discriminate|].
  apply (Hfree clk0); [now left|exact Hheld].
Qed.


(** ** The theorems at concrete inputs *)

(** [fpga-clk0] answers 7 to enable and -5 to disable. *)
Lemma interface_enable_disable_hook_witness :
  fst <$> fpga_region_interface_enable kernel0 (Interface clk0) (populated 7 (-5))
    = Some 7%Z /\
  fst <$> fpga_region_interface_disable kernel0 (Interface clk0) (populated 7 (-5))
    = Some (-5)%Z.
Proof.
  destruct (interface_enable_disable_hook kernel0 (populated 7 (-5)) clk0
              (clock "fpga-clk0" clk0_np 7 (-5) true (Some image)))
    as [Hhook _].
  - reflexivity.
  - destruct (Hhook (fun _ (enable : bool) e =>
                       if enable then (7%Z, e ++ ["fpga-clk0 on"])
                       else ((-5)%Z, e ++ ["fpga-clk0 off"]))) as [He Hd].
    + reflexivity.
    + rewrite He, Hd. split; reflexivity.
Defined.

(** The overlay has a node named [fpga-clk0], so the hook of [fpga-clk0]
    is called with it; the region node has none. *)
Lemma interface_of_setup_hook_witness :
  trace <$> (snd <$> fpga_region_interface_of_setup kernel0 (Interface clk0)
                       (Some overlay_np) (populated 0 0))
    = Some [Dbg (Interface clk0) "setup"; CallOfSetup clk0 overlay_clk0_np] /\
  trace <$> (snd <$> fpga_region_interface_of_setup kernel0 (Interface clk0)
                       (Some region_np) (populated 0 0))
    = Some [Dbg (Interface clk0) "setup"].
Proof.
  split.
  - destruct (interface_of_setup_hook kernel0 (populated 0 0) clk0
                (clock "fpga-clk0" clk0_np 0 0 true (Some image))
                (Some overlay_np)) as [Hhook _].
    + reflexivity.
    + rewrite (Hhook (fun _ _ e => (0%Z, e ++ ["fpga-clk0 setup"])) overlay_clk0_np);
        reflexivity.
  - destruct (interface_of_setup_hook kernel0 (populated 0 0) clk0
                (clock "fpga-clk0" clk0_np 0 0 true (Some image))
                (Some region_np)) as (_ & Hnone & _).
    + reflexivity.
    + rewrite Hnone; [reflexivity|]. right. reflexivity.
Defined.

(** Disabling [fpga-clk0] fails with -5: the walk from the tail disables
    [fpga-clk1], stops at [fpga-clk0] and returns -5, with or without a
    further member in front. *)
Lemma interfaces_enable_disable_abort_witness :
  fst <$> fpga_region_interfaces_disable kernel0
            ([Bridge legacy] ++ Interface clk0 :: [Interface clk1])
            (populated 0 (-5)) = Some (-5)%Z /\
  visits "disable"
    (match fpga_region_interfaces_disable kernel0
             ([Bridge legacy] ++ Interface clk0 :: [Interface clk1])
             (populated 0 (-5)) with
     | Some (_, w) => trace w
     | None => []
     end) = [Interface clk1; Interface clk0].
Proof.
  destruct (interfaces_enable_disable_abort_on_first_failure kernel0)
    as (_ & Hdisable & _).
  destruct (Hdisable [Bridge legacy] (Interface clk0) [Interface clk1]
              (populated 0 (-5))
              (set_ext ["fpga-clk1 off"]
                 (set_trace [Dbg (Interface clk1) "disable"; CallEnableSet clk1 false]
                    (populated 0 (-5))))
              (set_ext ["fpga-clk1 off"; "fpga-clk0 off"]
                 (set_trace [Dbg (Interface clk1) "disable"; CallEnableSet clk1 false;
                             Dbg (Interface clk0) "disable"; CallEnableSet clk0 false]
                    (populated 0 (-5))))
              (-5)%Z) as [Hrun Hvisits].
  - reflexivity.
  - reflexivity.
  - discriminate.
  - rewrite Hrun. split; [reflexivity|exact Hvisits].
Defined.

(** Releasing the held [fpga-clk0] frees it. *)
Lemma interface_put_clears_and_unlocks_witness :
  exists w',
    fpga_region_interface_put kernel0 clk0 (populated 0 0) = Some (tt, w') /\
    released w' clk0.
Proof.
  destruct (interface_put_clears_and_unlocks kernel0 (populated 0 0) clk0
              (clock "fpga-clk0" clk0_np 0 0 true (Some image)))
    as [(w' & Hput & Hrel & _) _].
  - reflexivity.
  - exists w'. split; assumption.
Defined.

(** [fpga-clk0] is held: the interface attempt fails with [-EBUSY], its node
    is no legacy bridge, and the caller gets [-ENODEV]. *)
Lemma get_to_list_bridge_fallback_witness :
  fst <$> of_fpga_region_interface_get kernel0 (Some clk0_np) (Some image)
            (populated 0 0) = Some (ERR_PTR EBUSY) /\
  fst <$> of_fpga_region_interface_get_to_list kernel0 (Some clk0_np) (Some image)
            [] (populated 0 0) = Some (Z.neg ENODEV, []).
Proof.
  destruct (get_to_list_bridge_fallback kernel0 (Some clk0_np) (Some image) []
              (populated 0 0)) as [_ Hbusy].
  destruct (Hbusy clk0 (clock "fpga-clk0" clk0_np 0 0 true (Some image))
              ENODEV []) as (w1 & w2 & H1 & H2);
    try reflexivity.
  rewrite H1, H2. split; reflexivity.
Defined.



(** The device tree resolver acquires both clocks, then enabling
    [fpga-clk0] fails with -7: both are released and the list is empty. *)
Lemma program_failure_unwinds_witness :
  exists w',
    fpga_region_core_program_fpga kernel0
      (Some (fpga_region_manager_get_interfaces kernel0)) (idle (-7) 0)
      = Some ((-7)%Z, w') /\
    region_mutex (region w') = false /\ mgr_ref_mutex w' = false /\
    interface_list (region w') = [] /\
    released w' clk0 /\ released w' clk1.
Proof.
  eexists. split; [vm_compute; reflexivity|].
  match goal with |- context [region_mutex (region ?w)] => set (w' := w) end.
  destruct (program_failure_unwinds kernel0
              (Some (fpga_region_manager_get_interfaces kernel0))
              (idle (-7) 0) w' (-7)%Z) as (Hm & Hg & _).
  - reflexivity.
  - vm_compute. reflexivity.
  - discriminate.
  - split; [exact Hm|]. split; [exact Hg|]. split; [reflexivity|].
    split; eexists; split; [vm_compute; reflexivity|split; reflexivity
                           |vm_compute; reflexivity|split; reflexivity].
Defined.

End OnTheBoard.

(** * Further properties of the code *)

Section MoreFacts.

Context {E : Type} (K : @kernel E).

Local Abbreviation world := (@world E).
Local Abbreviation M := (@M E).

(** ** One interface: outcomes of an acquisition *)

(** X1. [__fpga_region_interface_get] has three outcomes, decided by the mutex
    and by the module of the provider: the interface itself when the mutex
    is free and the module can be pinned, [-EBUSY] when the mutex is held,
    [-ENODEV] when the mutex is free but the module is going away.  The
    mutex is left locked exactly when it was locked before or the call
    succeeded, so the [-ENODEV] exit does not keep it; no other interface
    is touched. *)
Theorem interface_get_outcomes (w : world) (p : nat)
  (i : fpga_region_interface) (info' : option fpga_image_info) :
  interfaces w !! p = Some i ->
  exists res w1,
    __fpga_region_interface_get K p info' w = Some (res, w1) /\
    (res = PTR p <->
       mutex i = false /\ fst (try_module_get K (owner i) (ext w)) = true) /\
    (res = ERR_PTR EBUSY <-> mutex i = true) /\
    (res = ERR_PTR ENODEV <->
       mutex i = false /\ fst (try_module_get K (owner i) (ext w)) = false) /\
    (held w1 p <-> mutex i = true \/ res = PTR p) /\
    (forall q, q <> p -> interfaces w1 !! q = interfaces w !! q).
Proof.
  intros Hp. destruct (mutex i) eqn:Hm.
  - eexists _, _. split; [exact (interface_get_busy K _ _ _ _ Hp Hm)|].
    split; [split; [discriminate|now intros [? _]]|].
    split; [now split|].
    split; [split; [discriminate|now intros [? _]]|].
    split.
    + split; [now left|]. intros _.
      exists (set_info info' i). cbn. now rewrite lookup_insert_eq.
    + intros q Hq. cbn. now rewrite lookup_insert_ne.
  - pose proof (interface_get_free K _ _ _ info' Hp Hm) as Hget.
    destruct (try_module_get K (owner i) (ext w)) as [[|] e] eqn:Ht;
      eexists _, _; (split; [exact Hget|]); cbn.
    + split; [now split|].
      split; [split; discriminate|].
      split; [split; [discriminate|now intros [_ ?]]|].
      split.
      * split; [now right|]. intros _.
        exists (set_mutex true (set_info info' i)). cbn.
        now rewrite lookup_insert_eq.
      * intros q Hq. now rewrite lookup_insert_ne.
    + split; [split; [discriminate|now intros [_ ?]]|].
      split; [split; discriminate|].
      split; [now split|].
      split.
      * split.
        -- intros (j & Hj & Hmj). cbn in Hj. rewrite lookup_insert_eq in Hj.
           inversion Hj; subst j. cbn in Hmj. congruence.
        -- intros [?|?]; discriminate.
      * intros q Hq. now rewrite lookup_insert_ne.
Qed.

(** X2. Acquiring a free interface that records no image and releasing it
    again gives back the interfaces, the region, the lock of the engine
    and the class exactly as they were. *)
Theorem interface_get_put_round_trip (w : world) (p : nat)
  (i : fpga_region_interface) (info' : option fpga_image_info) :
  interfaces w !! p = Some i ->
  mutex i = false -> info i = None ->
  fst (try_module_get K (owner i) (ext w)) = true ->
  exists w1 w2,
    __fpga_region_interface_get K p info' w = Some (PTR p, w1) /\
    held w1 p /\
    (info <$> interfaces w1 !! p) = Some info' /\
    fpga_region_interface_put K p w1 = Some (tt, w2) /\
    same_objects w w2.
Proof.
  intros Hp Hm Hi Ht.
  pose proof (interface_get_free K _ _ _ info' Hp Hm) as Hget.
  destruct (try_module_get K (owner i) (ext w)) as [ok e]; cbn in Ht; subst ok.
  eexists _, _. split; [exact Hget|].
  assert (Hp1 : forall w0 : world,
            interfaces (set_interfaces
              (<[p := set_mutex true (set_info info' i)]> (interfaces w)) w0) !! p
            = Some (set_mutex true (set_info info' i))).
  { intros w0. cbn. now rewrite lookup_insert_eq. }
  split; [eexists; split; [apply Hp1|reflexivity]|].
  split; [cbn; now rewrite lookup_insert_eq|].
  split; [apply interface_put_result; apply Hp1|].
  cbn. repeat split. cbn. rewrite insert_insert_eq.
  replace (set_mutex false (set_info None (set_mutex true (set_info info' i))))
    with i; [now apply insert_id|].
  destruct i; cbn in *; now subst.
Qed.

(** X3. Between a successful acquisition and the release every further
    acquisition of the same interface fails with [-EBUSY] and leaves it
    held; after the release the interface is free and an acquisition no
    longer fails with [-EBUSY]. *)
Theorem interface_exclusive_until_put (w w1 : world) (p q : nat)
  (a : option fpga_image_info) :
  __fpga_region_interface_get K p a w = Some (PTR q, w1) ->
  q = p /\ held w1 p /\
  (forall b, exists w2,
     __fpga_region_interface_get K p b w1 = Some (ERR_PTR EBUSY, w2) /\
     held w2 p) /\
  (exists w3,
     fpga_region_interface_put K p w1 = Some (tt, w3) /\
     released w3 p /\
     forall b, exists res w4,
       __fpga_region_interface_get K p b w3 = Some (res, w4) /\
       res <> ERR_PTR EBUSY).
Proof.
  intros Hget.
  destruct (interface_get_trace K _ _ _ _ _ Hget) as [-> _].
  destruct (interface_get_held K _ _ _ _ _ Hget) as (_ & _ & Hheld).
  specialize (Hheld p eq_refl). destruct Hheld as (j & Hj & Hmj).
  split; [reflexivity|]. split; [now exists j|]. split.
  - intros b. eexists. split; [exact (interface_get_busy K _ _ _ b Hj Hmj)|].
    exists (set_info b j). cbn. now rewrite lookup_insert_eq.
  - eexists. split; [exact (interface_put_result K _ _ _ Hj)|].
    assert (Hfree : forall w0 : world,
              interfaces (set_interfaces
                (<[p := set_mutex false (set_info None j)]> (interfaces w1)) w0) !! p
              = Some (set_mutex false (set_info None j))).
    { intros w0. cbn. now rewrite lookup_insert_eq. }
    split; [eexists; split; [apply Hfree|now split]|].
    intros b.
    match goal with |- context [__fpga_region_interface_get K p b ?w0] =>
      pose proof (interface_get_free K w0 p _ b (Hfree _) eq_refl) as Hg;
      destruct (try_module_get K (owner (set_mutex false (set_info None j)))
                  (ext w0)) as [[|] e]
    end; eexists _, _; (split; [exact Hg|discriminate]).
Qed.

(** ** Lists: release and setup *)

Lemma interfaces_put_others l : forall (w w' : world) l',
  fpga_region_interfaces_put K l w = Some (l', w') ->
  (forall q, ~ In (Interface q) l -> interfaces w' !! q = interfaces w !! q) /\
  visits "put" (trace w') = visits "put" (trace w) ++ List.filter is_interface l.
Proof.
  induction l as [|m l IH]; intros w w' l' H; cbn in H.
  - unfold ret in H. inversion H; subst. split; [auto|now rewrite app_nil_r].
  - apply bind_inv in H as (u & w1 & Hm & H).
    destruct (IH _ _ _ H) as (Hothers & Hvisits).
    destruct m as [p|b].
    + destruct (interface_put_inv K _ _ _ _ Hm) as [i Hp].
      rewrite (interface_put_result K _ _ _ Hp) in Hm.
      inversion Hm; subst w1; clear Hm. cbn in *. split.
      * intros q Hq. rewrite Hothers; [|tauto].
        rewrite lookup_insert_ne; [reflexivity|]. intros ->. apply Hq. now left.
      * rewrite Hvisits, visits_app, <- app_assoc. reflexivity.
    + unfold bind, log, external_ in Hm. cbn in Hm.
      inversion Hm; subst w1; clear Hm. cbn in *. split.
      * intros q Hq. apply Hothers. tauto.
      * rewrite Hvisits, visits_app. cbn. now rewrite app_nil_r.
Qed.

(** X4. [fpga_region_interfaces_put] cannot fail: on a list of valid members it
    returns with the list empty, every region interface that was on it
    released (free, no image recorded), in list order, and everything
    else untouched: the interfaces that were not on the list, the region,
    the lock of the programming engine, the class. *)
Theorem interfaces_put_drains (l : list member) (w : world) :
  valid_list w l ->
  exists w',
    fpga_region_interfaces_put K l w = Some ([], w') /\
    (forall p, In (Interface p) l -> released w' p) /\
    (forall q, ~ In (Interface q) l -> interfaces w' !! q = interfaces w !! q) /\
    visits "put" (trace w') = visits "put" (trace w) ++ List.filter is_interface l /\
    region w' = region w /\ mgr_ref_mutex w' = mgr_ref_mutex w /\
    class_devices w' = class_devices w.
Proof.
  intros Hv. destruct (interfaces_put_defined K _ _ Hv) as [[l' w'] Hput].
  destruct (interfaces_put_result K _ _ _ _ Hput) as (-> & Hr & Hg & Hc & Hrel).
  destruct (interfaces_put_others _ _ _ _ Hput) as (Hothers & Hvisits).
  exists w'. split; [exact Hput|]. split; [intros p Hp; apply Hrel; now left|].
  now repeat split.
Qed.

(** X5. [fpga_region_interfaces_of_setup] walks the list from the head and is
    defined on valid members.  When every member succeeds it returns 0
    having visited all of them in list order; it stops at the first member
    whose setup fails, with that member's code and without visiting the
    rest.  Either way only the external state and the trace change. *)
Theorem interfaces_of_setup_walk (np : option nat) :
  (forall l (w : world),
     valid_list w l -> is_Some (fpga_region_interfaces_of_setup K l np w)) /\
  (forall l (w w' : world) r,
     fpga_region_interfaces_of_setup K l np w = Some (r, w') ->
     same_objects w w' /\
     (r = 0%Z ->
      visits "setup" (trace w') = visits "setup" (trace w) ++ l) /\
     (r <> 0%Z ->
      exists l1 m l2 w1,
        l = l1 ++ m :: l2 /\
        fpga_region_interfaces_of_setup K l1 np w = Some (0%Z, w1) /\
        fpga_region_interface_of_setup K m np w1 = Some (r, w') /\
        visits "setup" (trace w') = visits "setup" (trace w) ++ l1 ++ [m])).
Proof.
  split; [intros l w; apply interfaces_of_setup_defined|].
  intros l w w' r H. unfold fpga_region_interfaces_of_setup in *.
  split; [exact (walk_same_objects _ _ _ _ _ _ (interface_of_setup_reports K np) H)|].
  split.
  - intros ->. exact (walk_visits _ _ _ _ _ (interface_of_setup_reports K np) H).
  - intros Hr.
    destruct (list_for_each_entry_nonzero _ _ _ _ _ H Hr)
      as (l1 & m & l2 & w1 & -> & H1 & Hm).
    exists l1, m, l2, w1. split; [reflexivity|]. split; [exact H1|].
    split; [exact Hm|].
    destruct (interface_of_setup_reports K np _ _ _ _ Hm) as [_ Hv].
    rewrite Hv, (walk_visits _ _ _ _ _ (interface_of_setup_reports K np) H1).
    cbn. now rewrite <- app_assoc.
Qed.

(** ** Acquisition by parent device *)

Lemma find_by_parent_valid (w : world) dev p :
  find_by_parent w dev = Some p ->
  exists i, interfaces w !! p = Some i /\ parent i = dev /\
            In p (class_devices w).
Proof.
  unfold find_by_parent. intros H. apply find_some in H as [Hin H].
  destruct (interfaces w !! p) as [i|]; [|discriminate].
  exists i. split; [reflexivity|]. split; [|exact Hin].
  unfold fpga_region_interface_dev_match in H.
  now apply bool_decide_eq_true in H.
Qed.

Lemma interface_get_by_parent_result (w : world) dev info_ :
  fpga_region_interface_get K dev info_ w =
    match find_by_parent w dev with
    | Some p => __fpga_region_interface_get K p info_ w
    | None => Some (ERR_PTR ENODEV, w)
    end.
Proof.
  unfold fpga_region_interface_get, class_find_device, find_by_parent, bind.
  now destruct (List.find _ _).
Qed.

(** X6. [fpga_region_interface_get_to_list] acquires the first registered
    interface whose parent is the given device and links it at the head of
    the list, held.  When no interface has that parent, or the acquisition
    fails for any reason, it tries [fpga_bridge_get] on the device: a
    bridge is linked at the head, and otherwise the list is unchanged and
    the code returned is the one of the bridge attempt. *)
Theorem get_to_list_by_device (dev : nat) (info_ : option fpga_image_info)
  (l : list member) (w : world) :
  exists r w1,
    fpga_region_interface_get K dev info_ w = Some (r, w1) /\
    match r with
    | PTR p =>
        find_by_parent w dev = Some p /\ held w1 p /\
        fpga_region_interface_get_to_list K dev info_ l w =
          Some ((0%Z, Interface p :: l), w1)
    | ERR_PTR e1 =>
        (find_by_parent w dev = None -> e1 = ENODEV /\ w1 = w) /\
        fpga_region_interface_get_to_list K dev info_ l w =
          let w2 := set_trace (trace w1 ++ [CallBridgeGetDev dev]) w1 in
          match fpga_bridge_get K dev info_ (ext w1) with
          | (PTR b, e) => Some ((0%Z, Bridge b :: l), set_ext e w2)
          | (ERR_PTR e2, e) => Some ((Z.neg e2, l), set_ext e w2)
          end
    end.
Proof.
  assert (Hdef : exists r w1,
            fpga_region_interface_get K dev info_ w = Some (r, w1)).
  { rewrite interface_get_by_parent_result.
    destruct (find_by_parent w dev) as [p|] eqn:Hf; [|eauto].
    destruct (find_by_parent_valid _ _ _ Hf) as (i & Hp & _).
    exact (interface_get_defined K _ _ _ info_ Hp). }
  destruct Hdef as (r & w1 & Hr). exists r, w1. split; [exact Hr|].
  unfold fpga_region_interface_get_to_list.
  rewrite (bind_Some _ _ _ _ _ Hr).
  rewrite interface_get_by_parent_result in Hr.
  destruct r as [e1|p].
  - split.
    + intros Hnone. rewrite Hnone in Hr. now inversion Hr.
    + unfold bind, log, external, ret, list_add; cbn.
      destruct (fpga_bridge_get K dev info_ (ext w1)) as [[e2|b] e]; reflexivity.
  - destruct (find_by_parent w dev) as [p0|]; [|discriminate].
    destruct (interface_get_trace K _ _ _ _ _ Hr) as [-> _].
    destruct (interface_get_held K _ _ _ _ _ Hr) as (_ & _ & Hheld).
    split; [reflexivity|]. split; [now apply Hheld|reflexivity].
Qed.

(** ** The region's own reference *)

(** X7. [fpga_region_core_get] on a free region either takes the mutex, and
    [fpga_region_core_put] then gives the region back exactly as it was,
    or fails with [-ENODEV] because the module of the region's driver is
    going away, and then the mutex is free again.  Neither touches the
    interfaces or the lock of the programming engine. *)
Theorem region_get_put_round_trip (w : world) :
  region_mutex (region w) = false ->
  exists got w1,
    fpga_region_core_get K w = Some (got, w1) /\
    interfaces w1 = interfaces w /\ mgr_ref_mutex w1 = mgr_ref_mutex w /\
    match got with
    | PTR _ =>
        fst (try_module_get K (region_owner (region w)) (ext w)) = true /\
        region_mutex (region w1) = true /\
        exists w2,
          fpga_region_core_put K w1 = Some (tt, w2) /\
          region w2 = region w /\ interfaces w2 = interfaces w /\
          mgr_ref_mutex w2 = mgr_ref_mutex w
    | ERR_PTR e =>
        e = ENODEV /\
        fst (try_module_get K (region_owner (region w)) (ext w)) = false /\
        region w1 = region w
    end.
Proof.
  intros Hfree.
  assert (Heta : forall r : fpga_region_core,
            region_mutex r = false ->
            set_region_mutex false (set_region_mutex true r) = r).
  { intros r Hr. destruct r; cbn in *. now subst. }
  unfold fpga_region_core_get, fpga_region_core_put, get_region, put_region.
  unfold bind, ret, log, external, external_. cbn. rewrite Hfree. cbn.
  destruct (try_module_get K (region_owner (region w)) (ext w)) as [[|] e];
    cbn; eexists _, _; (split; [reflexivity|]); cbn;
    (split; [reflexivity|]); (split; [reflexivity|]).
  - split; [reflexivity|]. split; [reflexivity|].
    eexists. split; [reflexivity|]. cbn. now rewrite Heta.
  - split; [reflexivity|]. split; [reflexivity|]. now apply Heta.
Qed.

(** ** The program call: what happens around the load *)

Lemma loads_app (t1 t2 : list event) : loads (t1 ++ t2) = loads t1 + loads t2.
Proof.
  induction t1 as [|e t1 IH]; [reflexivity|].
  destruct e; cbn; auto; now rewrite IH.
Qed.

Ltac step_cases :=
  repeat match goal with
    | H : Some _ = Some _ |- _ => inversion H; subst; clear H
    | H : None = Some _ |- _ => discriminate H
    | H : context [match ?x with _ => _ end] |- _ =>
        let Hx := fresh "Hx" in destruct x eqn:Hx; cbn in H
    end.



Lemma walk_trace (body : member -> M Z) l : forall (w w' : world) r,
  (forall m w r w', body m w = Some (r, w') ->
     exists t, trace w' = trace w ++ t /\ loads t = 0) ->
  list_for_each_entry body l w = Some (r, w') ->
  exists t, trace w' = trace w ++ t /\ loads t = 0.
Proof.
  induction l as [|a l IH]; intros w w' r Hb H; cbn in H.
  - unfold ret in H. inversion H; subst. exists []. now rewrite app_nil_r.
  - apply bind_inv in H as (r1 & w1 & Ha & H).
    destruct (Hb _ _ _ _ Ha) as (t1 & Ht1 & Hl1).
    destruct (r1 =? 0)%Z.
    + destruct (IH _ _ _ Hb H) as (t2 & Ht2 & Hl2).
      exists (t1 ++ t2). rewrite Ht2, Ht1, <- app_assoc, loads_app, Hl1, Hl2.
      now split.
    + unfold ret in H. inversion H; subst. now exists t1.
Qed.

Lemma walk_visits_all msg (body : member -> M Z) l : forall (w w' : world),
  reports msg body ->
  list_for_each_entry body l w = Some (0%Z, w') ->
  forall msg', visits msg' (trace w') =
               visits msg' (trace w) ++ (if String.eqb msg' msg then l else []).
Proof.
  induction l as [|a l IH]; intros w w' Hb H msg'; cbn in H.
  - unfold ret in H. inversion H; subst.
    destruct (String.eqb msg' msg); now rewrite app_nil_r.
  - apply bind_inv in H as (r1 & w1 & Ha & H).
    destruct (Hb _ _ _ _ Ha) as [_ Hv].
    destruct (r1 =? 0)%Z eqn:Hr1;
      [|unfold ret in H; inversion H; subst; discriminate Hr1].
    rewrite (IH _ _ Hb H msg'), Hv, <- app_assoc.
    now destruct (String.eqb msg' msg).
Qed.











Lemma settled_resolved (gi : option (M Z)) (w w2 : world) :
  settled_from gi w w2 -> resolved_from gi w w2.
Proof.
  destruct gi as [f|]; cbn.
  - intros (w1 & Hl & _ & Hf). now exists w1.
  - now intros [Hl _].
Qed.

Lemma walk_trace_visits msg (body : member -> M Z) l (w w' : world) :
  reports msg body ->
  (forall m w r w', body m w = Some (r, w') ->
     exists t, trace w' = trace w ++ t /\ loads t = 0) ->
  list_for_each_entry body l w = Some (0%Z, w') ->
  exists t,
    trace w' = trace w ++ t /\ loads t = 0 /\
    forall msg', visits msg' t = if String.eqb msg' msg then l else [].
Proof.
  intros Hr Ht H. destruct (walk_trace _ _ _ _ _ Ht H) as (t & Htr & Hl).
  exists t. split; [exact Htr|]. split; [exact Hl|]. intros msg'.
  pose proof (walk_visits_all _ _ _ _ _ Hr H msg') as Hv.
  rewrite Htr, visits_app in Hv. now apply app_inv_head in Hv.
Qed.



(** X10. On a free region without [get_interfaces] whose list is empty,
    with a live module, disabling and enabling have nothing to do.  When
    the lock of the programming engine is free, the result of the program
    call is the result of the load, the engine having been called once.
    When that lock is held, the call returns [-EBUSY] and the engine is not
    called.  Either way no member is visited, and the region, the
    interfaces and the engine lock are left as they were. *)
Theorem program_empty_list_returns_load_result (w : world) :
  region_mutex (region w) = false ->
  interface_list (region w) = [] ->
  fst (try_module_get K (region_owner (region w)) (ext w)) = true ->
  (mgr_ref_mutex w = false ->
   exists w',
     fpga_region_core_program_fpga K None w =
       Some (fst (fpga_mgr_load K (region_info (region w))
                    (snd (try_module_get K (region_owner (region w)) (ext w)))),
             w') /\
     region w' = region w /\ interfaces w' = interfaces w /\
     mgr_ref_mutex w' = false /\
     loads (trace w') = S (loads (trace w)) /\
     (forall msg, visits msg (trace w') = visits msg (trace w))) /\
  (mgr_ref_mutex w = true ->
   exists w',
     fpga_region_core_program_fpga K None w = Some (Z.neg EBUSY, w') /\
     region w' = region w /\ interfaces w' = interfaces w /\
     mgr_ref_mutex w' = true /\
     loads (trace w') = loads (trace w) /\
     (forall msg, visits msg (trace w') = visits msg (trace w))).
Proof.
  intros Hfree Hnil Hlive.
  assert (Heta : set_region_mutex false (set_region_mutex true (region w))
                 = region w).
  { destruct (region w); cbn in *. now subst. }
  unfold fpga_region_core_program_fpga, fpga_region_core_get, fpga_mgr_lock,
    region_interfaces_disable, region_interfaces_enable,
    fpga_region_interfaces_disable, fpga_region_interfaces_enable,
    list_for_each_entry_reverse, err_put_br, err_unlock_mgr, err_put_region,
    fpga_mgr_unlock, fpga_region_core_put, get_region, put_region,
    bind, ret, log, external, external_.
  cbn. rewrite Hfree. cbn.
  destruct (try_module_get K (region_owner (region w)) (ext w)) as [ok e1].
  cbn in Hlive; subst ok. cbn. split; intros Hmgr; rewrite Hmgr; cbn.
  - rewrite Hnil. cbn.
    destruct (fpga_mgr_load K (region_info (region w)) e1) as [rm e2]. cbn.
    destruct (rm =? 0)%Z eqn:Hrm; cbn.
    + apply Z.eqb_eq in Hrm; subst rm. rewrite Hnil. cbn.
      eexists. split; [reflexivity|]. cbn. rewrite Heta. repeat split.
      * rewrite !loads_app. cbn. rewrite !Nat.add_0_r. apply Nat.add_1_r.
      * intros msg. rewrite !visits_app. cbn. now rewrite !app_nil_r.
    + eexists. split; [reflexivity|]. cbn. rewrite Heta. repeat split.
      * rewrite !loads_app. cbn. rewrite !Nat.add_0_r. apply Nat.add_1_r.
      * intros msg. rewrite !visits_app. cbn. now rewrite !app_nil_r.
  - eexists. split; [reflexivity|]. cbn. rewrite Heta. repeat split.
    + exact Hmgr.
    + rewrite !loads_app. cbn. now rewrite !Nat.add_0_r.
    + intros msg. rewrite !visits_app. cbn. now rewrite !app_nil_r.
Qed.

(** ** The device tree resolver *)

Lemma region_get_to_list_cases np info_ (w w1 : world) r :
  region_get_to_list K np info_ w = Some (r, w1) ->
  (exists l', region w1 = set_interface_list l' (region w)) /\
  (r = 0%Z /\
   (exists m, interface_list (region w1) = m :: interface_list (region w)) \/
   (exists e2 e e',
      of_fpga_bridge_get K np info_ e = (ERR_PTR e2, e') /\ r = Z.neg e2) /\
   interface_list (region w1) = interface_list (region w)).
Proof.
  unfold region_get_to_list. intros H.
  apply bind_inv in H as (r0 & w0 & Hr0 & H).
  unfold get_region in Hr0. inversion Hr0; subst r0 w0; clear Hr0.
  apply bind_inv in H as ([rc l'] & w2 & Hget & H).
  destruct (get_to_list_held K _ _ _ _ _ _ _ Hget) as (Hreg & _).
  unfold get_region, put_region, bind, ret in H. cbn in H.
  inversion H; subst r w1; clear H. cbn. rewrite Hreg.
  split; [now exists l'|].
  destruct (get_to_list_links_or_not K np info_ (interface_list (region w)) w)
    as (res & w0 & _ & Hl).
  rewrite Hl in Hget. clear Hl. destruct res as [e1|p].
  - cbn in Hget.
    destruct (of_fpga_bridge_get K np info_ (ext w0)) as [[e2|b] e'] eqn:Hb;
      inversion Hget; subst; clear Hget.
    + right. split; [|reflexivity]. now exists e2, (ext w0), e'.
    + left. split; [reflexivity|]. now exists (Bridge b).
  - inversion Hget; subst; clear Hget.
    left. split; [reflexivity|]. now exists (Interface p).
Qed.

Lemma region_interfaces_put_releases (w w' : world) u :
  region_interfaces_put K w = Some (u, w') ->
  interface_list (region w') = [] /\
  forall p, In (Interface p) (interface_list (region w)) -> released w' p.
Proof.
  unfold region_interfaces_put, get_region, put_region. intros H.
  apply bind_inv in H as (r0 & w0 & [= <- <-] & H).
  apply bind_inv in H as (l' & w3 & Hl' & H).
  destruct (interfaces_put_result K _ _ _ _ Hl') as (-> & _ & _ & _ & Hrel).
  cbn in H. inversion H; subst; clear H. cbn.
  split; [reflexivity|]. intros p Hp. apply Hrel. now left.
Qed.

(** The loop over the references either finishes with the list grown by
    what it acquired, or gives up with [-EBUSY], which only the legacy
    bridge attempt can cause, after releasing the whole list. *)
Lemma get_interfaces_loop_cases refs parent_br info_ : forall (w w1 : world) r,
  get_interfaces_loop K refs parent_br info_ w = Some (r, w1) ->
  (exists l', region w1 = set_interface_list l' (region w)) /\
  (r = 0%Z /\
   (exists added,
      interface_list (region w1) = added ++ interface_list (region w)) \/
   r = Z.neg EBUSY /\ interface_list (region w1) = [] /\
   (forall p, In (Interface p) (interface_list (region w)) -> released w1 p) /\
   (exists np e e', of_fpga_bridge_get K np info_ e = (ERR_PTR EBUSY, e'))).
Proof.
  induction refs as [|br refs IH]; intros w w1 r H; cbn in H.
  - unfold ret in H. inversion H; subst.
    split; [exists (interface_list (region w1)); now destruct (region w1)|].
    left. split; [reflexivity|]. now exists [].
  - destruct (bool_decide (Some br = parent_br)); [now apply IH|].
    apply bind_inv in H as (rc & w2 & Hget & H).
    destruct (region_get_to_list_cases _ _ _ _ _ Hget) as ([l2 Hr2] & Hcase).
    assert (Hgrow : exists added,
              interface_list (region w2) = added ++ interface_list (region w)).
    { destruct Hcase as [(_ & m & ->)|(_ & ->)]; [now exists [m]|now exists []]. }
    destruct (rc =? Z.neg EBUSY)%Z eqn:Hrc.
    + apply Z.eqb_eq in Hrc; subst rc.
      apply bind_inv in H as (u & w3 & Hput & H).
      unfold ret in H. inversion H; subst r w1; clear H.
      destruct (region_interfaces_put_releases _ _ _ Hput) as (Hnil & Hrel).
      split.
      * exists []. unfold region_interfaces_put, get_region, put_region in Hput.
        apply bind_inv in Hput as (r0 & w0 & [= <- <-] & Hput).
        apply bind_inv in Hput as (l' & w4 & Hl' & Hput).
        destruct (interfaces_put_result K _ _ _ _ Hl') as (-> & Hr4 & _).
        cbn in Hput. inversion Hput; subst; clear Hput. cbn.
        rewrite Hr4, Hr2. reflexivity.
      * right. split; [reflexivity|]. split; [exact Hnil|]. split.
        -- intros p Hp. apply Hrel. destruct Hgrow as [added ->].
           apply in_or_app. now right.
        -- destruct Hcase as [(Hz & _)|((e2 & e & e' & Hb & He) & _)];
             [discriminate|].
           inversion He; subst e2. now exists (Some br), e, e'.
    + destruct (IH _ _ _ H) as ([l3 Hr3] & Hrest). split.
      * exists l3. rewrite Hr3, Hr2. reflexivity.
      * destruct Hrest as [(-> & added & Ha)|(-> & Hnil & Hrel & Hb)].
        -- left. split; [reflexivity|]. destruct Hgrow as [added2 Ha2].
           exists (added ++ added2). now rewrite Ha, Ha2, app_assoc.
        -- right. split; [reflexivity|]. split; [exact Hnil|].
           split; [|exact Hb]. intros p Hp. apply Hrel.
           destruct Hgrow as [added ->]. apply in_or_app. now right.
Qed.

Lemma region_of_setup_steps np (w w' : world) r :
  region_interfaces_of_setup K np w = Some (r, w') ->
  fpga_region_interfaces_of_setup K (interface_list (region w)) np w
    = Some (r, w') /\ same_objects w w'.
Proof.
  unfold region_interfaces_of_setup, bind, get_region. intros H.
  split; [exact H|].
  exact (walk_same_objects _ _ _ _ _ _ (interface_of_setup_reports K np) H).
Qed.

Lemma dbg_get_quiet p msg : msg <> "get" ->
  visits msg [Dbg (Interface p) "get"] = [].
Proof.
  intros Hmsg. cbn. destruct (String.eqb msg "get") eqn:Heq; [|reflexivity].
  apply String.eqb_eq in Heq. contradiction.
Qed.

Lemma region_get_to_list_trace np info_ (w w1 : world) r :
  region_get_to_list K np info_ w = Some (r, w1) ->
  exists t, trace w1 = trace w ++ t /\ loads t = 0 /\
            forall msg, msg <> "get" -> visits msg t = [].
Proof.
  unfold region_get_to_list. intros H.
  apply bind_inv in H as (r0 & w0 & [= <- <-] & H).
  apply bind_inv in H as ([rc l'] & w2 & Hget & H).
  unfold get_region, put_region, bind, ret in H. cbn in H.
  inversion H; subst r w1; clear H. cbn.
  destruct (get_to_list_links_or_not K np info_ (interface_list (region w)) w)
    as (res & w0 & Hres & Hl).
  rewrite Hl in Hget. clear Hl.
  assert (Hfirst : exists t0, trace w0 = trace w ++ t0 /\ loads t0 = 0 /\
                     forall msg, msg <> "get" -> visits msg t0 = []).
  { rewrite of_interface_get_result in Hres.
    destruct (find_by_of_node w np) as [p|].
    - pose proof (interface_get_trace K _ _ _ _ _ Hres) as Ht.
      destruct res as [e|q].
      + exists []. now rewrite app_nil_r.
      + destruct Ht as [_ Ht]. exists [Dbg (Interface p) "get"].
        split; [exact Ht|]. split; [reflexivity|]. apply dbg_get_quiet.
    - inversion Hres; subst. exists []. now rewrite app_nil_r. }
  destruct Hfirst as (t0 & Ht0 & Hl0 & Hv0).
  destruct res as [e1|p].
  - cbn in Hget.
    destruct (of_fpga_bridge_get K np info_ (ext w0)) as [[e2|b] e'];
      inversion Hget; subst; clear Hget; cbn;
      exists (t0 ++ [CallBridgeGet np]);
      (split; [now rewrite Ht0, app_assoc|]);
      (split; [now rewrite loads_app, Hl0|]);
      intros msg Hmsg; now rewrite visits_app, Hv0.
  - inversion Hget; subst; clear Hget. now exists t0.
Qed.

Lemma get_interfaces_loop_trace refs parent_br info_ : forall (w w1 : world),
  get_interfaces_loop K refs parent_br info_ w = Some (0%Z, w1) ->
  exists t, trace w1 = trace w ++ t /\ loads t = 0 /\
            forall msg, msg <> "get" -> visits msg t = [].
Proof.
  induction refs as [|br refs IH]; intros w w1 H; cbn in H.
  - unfold ret in H. inversion H; subst. exists []. now rewrite app_nil_r.
  - destruct (bool_decide (Some br = parent_br)); [now apply IH|].
    apply bind_inv in H as (rc & w2 & Hget & H).
    destruct (rc =? Z.neg EBUSY)%Z.
    + apply bind_inv in H as (u & w3 & _ & H). unfold ret in H.
      inversion H.
    + destruct (region_get_to_list_trace _ _ _ _ _ Hget) as (t1 & Ht1 & Hl1 & Hv1).
      destruct (IH _ _ H) as (t2 & Ht2 & Hl2 & Hv2).
      exists (t1 ++ t2). split; [now rewrite Ht2, Ht1, app_assoc|].
      split; [now rewrite loads_app, Hl1, Hl2|].
      intros msg Hmsg. now rewrite visits_app, Hv1, Hv2.
Qed.

Lemma interface_of_setup_trace np m (w : world) r (w' : world) :
  fpga_region_interface_of_setup K m np w = Some (r, w') ->
  exists t, trace w' = trace w ++ t /\ loads t = 0.
Proof.
  intros H. unfold fpga_region_interface_of_setup in H.
  unfold bind, log, deref, external, ret in H; cbn in H.
  destruct m as [p|b]; cbn in H; step_cases; cbn;
    rewrite <- ?app_assoc; eexists; (split; [reflexivity|reflexivity]).
Qed.

(** Every way [fpga_region_manager_get_interfaces] can end. *)
Lemma get_interfaces_cases (w w' : world) r :
  fpga_region_manager_get_interfaces K w = Some (r, w') ->
  (* the parent is a busy legacy bridge *)
  (r = Z.neg EBUSY /\
   interface_list (region w') = interface_list (region w) /\
   exists np e e', of_fpga_bridge_get K np (region_info (region w)) e
                   = (ERR_PTR EBUSY, e')) \/
  (* a busy legacy bridge among the references, or a setup that failed *)
  (r = Z.neg EBUSY /\ interface_list (region w') = [] /\
   (forall p, In (Interface p) (interface_list (region w)) -> released w' p) /\
   ((exists np e e', of_fpga_bridge_get K np (region_info (region w)) e
                     = (ERR_PTR EBUSY, e')) \/
    exists l np (wa wb : world) rs,
      fpga_region_interfaces_of_setup K l np wa = Some (rs, wb) /\ rs <> 0%Z)) \/
  (* success *)
  (r = 0%Z /\
   exists image w2 w3,
     region_info (region w) = Some image /\
     (exists added,
        interface_list (region w') = added ++ interface_list (region w)) /\
     (exists t, trace w2 = trace w ++ t /\ loads t = 0 /\
                forall msg, msg <> "get" -> visits msg t = []) /\
     fpga_region_interfaces_of_setup K (interface_list (region w'))
       (Some (region_of_node (region w))) w2 = Some (0%Z, w3) /\
     fpga_region_interfaces_of_setup K (interface_list (region w'))
       (overlay image) w3 = Some (0%Z, w')).
Proof.
  unfold fpga_region_manager_get_interfaces. intros H.
  apply bind_inv in H as (r0 & w0 & Hr0 & H).
  unfold get_region in Hr0. inversion Hr0; subst r0 w0; clear Hr0.
  apply bind_inv in H as (r1 & w1 & H1 & H).
  destruct (region_get_to_list_cases _ _ _ _ _ H1) as ([l1 Hreg1] & Hcase1).
  assert (Hgrow1 : exists added,
            interface_list (region w1) = added ++ interface_list (region w)).
  { destruct Hcase1 as [(_ & m & ->)|(_ & ->)]; [now exists [m]|now exists []]. }
  destruct (r1 =? Z.neg EBUSY)%Z eqn:Hr1.
  { apply Z.eqb_eq in Hr1; subst r1. unfold ret in H.
    inversion H; subst r w'; clear H. left. split; [reflexivity|].
    destruct Hcase1 as [(Hz & _)|((e2 & e & e' & Hb & He) & Hl)];
      [discriminate|].
    split; [exact Hl|]. inversion He; subst e2.
    now exists (node_parent K (region_of_node (region w))), e, e'. }
  apply bind_inv in H as (image & wi & Himage & H).
  destruct (region_info (region w)) as [image'|] eqn:Hinfo; [|discriminate].
  inversion Himage; subst image' wi; clear Himage.
  apply bind_inv in H as (r2 & w2 & H2 & H).
  destruct (get_interfaces_loop_cases _ _ _ _ _ _ H2) as ([l2 Hreg2] & Hcase2).
  destruct (r2 =? 0)%Z eqn:Hr2; cbn [negb] in H.
  2:{ unfold ret in H. inversion H; subst r w'; clear H.
      destruct Hcase2 as [(-> & _)|(-> & Hnil & Hrel & Hb)]; [discriminate|].
      right; left. split; [reflexivity|]. split; [exact Hnil|].
      split; [|now left]. intros p Hp. apply Hrel.
      destruct Hgrow1 as [added ->]. apply in_or_app. now right. }
  destruct Hcase2 as [(_ & added2 & Hgrow2)|(-> & _)]; [|discriminate].
  assert (Hold : forall p, In (Interface p) (interface_list (region w)) ->
                           In (Interface p) (interface_list (region w2))).
  { intros p Hp. rewrite Hgrow2. destruct Hgrow1 as [added ->].
    apply in_or_app. right. apply in_or_app. now right. }
  apply bind_inv in H as (r3 & w3 & H3 & H).
  destruct (region_of_setup_steps _ _ _ _ H3) as (Hs3 & (_ & _ & Hreg3 & _)).
  destruct (r3 =? 0)%Z eqn:Hr3; cbn [negb] in H.
  2:{ apply Z.eqb_neq in Hr3.
      apply bind_inv in H as (u & w4 & Hput & H).
      unfold ret in H. inversion H; subst r w'; clear H.
      destruct (region_interfaces_put_releases _ _ _ Hput) as (Hnil & Hrel).
      right; left. split; [reflexivity|]. split; [exact Hnil|]. split.
      - intros p Hp. apply Hrel. rewrite Hreg3. now apply Hold.
      - right. do 4 eexists. exists r3. split; [exact Hs3|exact Hr3]. }
  apply Z.eqb_eq in Hr3; subst r3.
  apply bind_inv in H as (r4 & w4 & H4 & H).
  destruct (region_of_setup_steps _ _ _ _ H4) as (Hs4 & (_ & _ & Hreg4 & _)).
  destruct (r4 =? 0)%Z eqn:Hr4; cbn [negb] in H.
  2:{ apply Z.eqb_neq in Hr4.
      apply bind_inv in H as (u & w5 & Hput & H).
      unfold ret in H. inversion H; subst r w'; clear H.
      destruct (region_interfaces_put_releases _ _ _ Hput) as (Hnil & Hrel).
      right; left. split; [reflexivity|]. split; [exact Hnil|]. split.
      - intros p Hp. apply Hrel. rewrite Hreg4, Hreg3. now apply Hold.
      - right. do 4 eexists. exists r4. split; [exact Hs4|exact Hr4]. }
  apply Z.eqb_eq in Hr4; subst r4.
  unfold ret in H. inversion H; subst r w'; clear H.
  right; right. split; [reflexivity|]. exists image, w2, w3.
  split; [reflexivity|]. split.
  - rewrite Hreg4, Hreg3, Hgrow2. destruct Hgrow1 as [added ->].
    exists (added2 ++ added). now rewrite app_assoc.
  - split.
    + apply Z.eqb_eq in Hr2; subst r2.
      destruct (region_get_to_list_trace _ _ _ _ _ H1) as (t1 & Ht1 & Hl1 & Hv1).
      destruct (get_interfaces_loop_trace _ _ _ _ _ H2) as (t2 & Ht2 & Hl2 & Hv2).
      exists (t1 ++ t2). split; [now rewrite Ht2, Ht1, app_assoc|].
      split; [now rewrite loads_app, Hl1, Hl2|].
      intros msg Hmsg. now rewrite visits_app, Hv1, Hv2.
    + rewrite Hreg4, Hreg3. rewrite Hreg3 in Hs4. now split.
Qed.

(** X11. When [fpga_region_manager_get_interfaces] fails the caller always sees
    [-EBUSY], also when it was a setup hook that failed with another code.
    The list is then either as it was, which is the case of a busy parent
    bridge, or it is empty and every interface that was on it when the
    call started has been released, those acquired by earlier calls
    included. *)
Theorem get_interfaces_failure_is_busy (w w' : world) r :
  fpga_region_manager_get_interfaces K w = Some (r, w') ->
  r <> 0%Z ->
  r = Z.neg EBUSY /\
  (interface_list (region w') = interface_list (region w) \/
   interface_list (region w') = [] /\
   forall p, In (Interface p) (interface_list (region w)) -> released w' p).
Proof.
  intros H Hr.
  destruct (get_interfaces_cases _ _ _ H)
    as [(-> & Hl & _)|[(-> & Hnil & Hrel & _)|(-> & _)]].
  - split; [reflexivity|now left].
  - split; [reflexivity|right; now split].
  - contradiction.
Qed.

(** X12. When [fpga_region_manager_get_interfaces] succeeds the list has only
    grown at its head, and the call ended with two setup passes over the
    whole resulting list, members acquired by earlier calls included: first
    for the node of the region, then for the overlay of the image.  The
    programming engine is not called, and no member is enabled or
    disabled. *)
Theorem get_interfaces_success_sets_up_twice (w w' : world) :
  fpga_region_manager_get_interfaces K w = Some (0%Z, w') ->
  exists image w2 w3,
    region_info (region w) = Some image /\
    (exists added,
       interface_list (region w') = added ++ interface_list (region w)) /\
    fpga_region_interfaces_of_setup K (interface_list (region w'))
      (Some (region_of_node (region w))) w2 = Some (0%Z, w3) /\
    fpga_region_interfaces_of_setup K (interface_list (region w'))
      (overlay image) w3 = Some (0%Z, w') /\
    visits "setup" (trace w') =
      visits "setup" (trace w)
        ++ interface_list (region w') ++ interface_list (region w') /\
    visits "enable" (trace w') = visits "enable" (trace w) /\
    visits "disable" (trace w') = visits "disable" (trace w) /\
    loads (trace w') = loads (trace w).
Proof.
  intros H.
  destruct (get_interfaces_cases _ _ _ H)
    as [(Hr & _)|[(Hr & _)|(_ & image & w2 & w3 & Hinfo & Hgrow & Hacq & Hs1 & Hs2)]];
    [discriminate Hr|discriminate Hr|].
  exists image, w2, w3. split; [exact Hinfo|]. split; [exact Hgrow|].
  split; [exact Hs1|]. split; [exact Hs2|].
  destruct Hacq as (t0 & Ht0 & Hl0 & Hv0).
  unfold fpga_region_interfaces_of_setup in Hs1, Hs2.
  destruct (walk_trace_visits _ _ _ _ _
              (interface_of_setup_reports K _) (interface_of_setup_trace _) Hs1)
    as (t1 & Ht1 & Hl1 & Hv1).
  destruct (walk_trace_visits _ _ _ _ _
              (interface_of_setup_reports K _) (interface_of_setup_trace _) Hs2)
    as (t2 & Ht2 & Hl2 & Hv2).
  rewrite Ht2, Ht1, Ht0, !visits_app, !loads_app, Hl0, Hl1, Hl2.
  rewrite !Hv1, !Hv2, !Hv0 by discriminate. cbn.
  rewrite !app_nil_r, <- !app_assoc. repeat split; lia.
Qed.

(** X13. An interface that is in use never stops the acquisition: its [-EBUSY]
    is replaced by the answer of the legacy bridge lookup for the same
    node.  With a legacy framework that reports no bridge in use,
    [of_fpga_region_interface_get_to_list] on the region's list never
    returns [-EBUSY], and the loop over the references always runs to its
    end and returns 0, the list having only grown at its head. *)
Theorem busy_interface_does_not_stop_acquisition
  (info_ : option fpga_image_info) :
  (forall np e, fst (of_fpga_bridge_get K np info_ e) <> ERR_PTR EBUSY) ->
  (forall np (w w1 : world) r,
     region_get_to_list K np info_ w = Some (r, w1) -> r <> Z.neg EBUSY) /\
  (forall refs parent_br (w w1 : world) r,
     get_interfaces_loop K refs parent_br info_ w = Some (r, w1) ->
     r = 0%Z /\
     exists added,
       interface_list (region w1) = added ++ interface_list (region w)).
Proof.
  intros Hfree. split.
  - intros np w w1 r H ->.
    destruct (region_get_to_list_cases _ _ _ _ _ H)
      as (_ & [(Hz & _)|((e2 & e & e' & Hb & He) & _)]); [discriminate|].
    inversion He; subst e2. apply (Hfree np e). now rewrite Hb.
  - intros refs parent_br w w1 r H.
    destruct (get_interfaces_loop_cases _ _ _ _ _ _ H)
      as (_ & [(-> & Hgrow)|(_ & _ & _ & np & e & e' & Hb)]); [now split|].
    exfalso. apply (Hfree np e). now rewrite Hb.
Qed.

End MoreFacts.

(** * Attachment, lookup of the programming engine, sysfs: properties *)

Section AttachFacts.

Context {E : Type} (K : @kernel E) (P : @platform E).

Local Abbreviation world := (@world E).
Local Abbreviation M := (@M E).

(** ** Registration and lookup *)

Lemma find_app_tail {A} (f : A -> bool) (l1 l2 : list A) :
  List.find f (l1 ++ l2) =
  match List.find f l1 with Some a => Some a | None => List.find f l2 end.
Proof.
  induction l1 as [|a l1 IH]; [reflexivity|]. cbn. now destruct (f a).
Qed.

Lemma find_filter_other {A} (f keep : A -> bool) (l : list A) a :
  List.find f l = Some a -> keep a = true ->
  List.find f (List.filter keep l) = Some a.
Proof.
  intros Hf Hk. induction l as [|b l IH]; [discriminate|].
  cbn in Hf |- *. destruct (f b) eqn:Hb.
  - inversion Hf; subst b. rewrite Hk. cbn. now rewrite Hb.
  - destruct (keep b); cbn; [rewrite Hb|]; now apply IH.
Qed.

Lemma find_filter_In {A} (f keep : A -> bool) (l : list A) a :
  List.find f (List.filter keep l) = Some a -> keep a = true.
Proof.
  intros H. apply find_some in H as [Hin _].
  now apply filter_In in Hin.
Qed.

Lemma register_steps p (w w' : world) r :
  fpga_region_interface_register P p w = Some (r, w') ->
  exists i e,
    interfaces w !! p = Some i /\
    device_add_rc P p (ext w) = (r, e) /\
    interfaces w' = interfaces w /\ region w' = region w /\
    mgr_ref_mutex w' = mgr_ref_mutex w /\ trace w' = trace w /\
    class_devices w' =
      (if (r =? 0)%Z then class_devices w ++ [p] else class_devices w) /\
    ext w' = (if (r =? 0)%Z then of_platform_populate P (of_node i) p e else e).
Proof.
  unfold fpga_region_interface_register, device_add. intros H.
  apply bind_inv in H as (i & w0 & Hi & H).
  unfold deref in Hi. destruct (interfaces w !! p) as [i'|] eqn:Hp; [|discriminate].
  inversion Hi; subst i' w0; clear Hi.
  unfold bind, external, external_, ret in H.
  destruct (device_add_rc P p (ext w)) as [r0 e] eqn:Hrc. cbn in H.
  exists i, e. destruct (r0 =? 0)%Z eqn:Hr0; cbn in H.
  - inversion H; subst r w'; clear H. apply Z.eqb_eq in Hr0; subst r0.
    now cbn.
  - cbn in H. rewrite Hr0 in H. cbn in H. inversion H; subst r w'; clear H.
    rewrite Hr0. now cbn.
Qed.

(** X14. [fpga_region_interface_register] returns the code of [device_add].
    When that is 0 the children of the interface's node are populated and
    the interface is at the tail of its class: a lookup by device tree
    node answers what it answered before, and the new interface for its
    own node when no interface registered earlier has that node.  When
    [device_add] refuses, nothing is populated and the class and the
    lookups are as before.  Locks, image infos, the region and the trace
    are never touched. *)
Theorem register_extends_lookup p (w w' : world) r :
  fpga_region_interface_register P p w = Some (r, w') ->
  exists i,
    interfaces w !! p = Some i /\
    r = fst (device_add_rc P p (ext w)) /\
    interfaces w' = interfaces w /\ region w' = region w /\
    mgr_ref_mutex w' = mgr_ref_mutex w /\ trace w' = trace w /\
    (r <> 0%Z ->
     class_devices w' = class_devices w /\
     ext w' = snd (device_add_rc P p (ext w)) /\
     forall np, find_by_of_node w' np = find_by_of_node w np) /\
    (r = 0%Z ->
     class_devices w' = class_devices w ++ [p] /\
     ext w' = of_platform_populate P (of_node i) p
                (snd (device_add_rc P p (ext w))) /\
     forall np,
       find_by_of_node w' np =
       match find_by_of_node w np with
       | Some q => Some q
       | None => if bool_decide (of_node i = np) then Some p else None
       end).
Proof.
  intros H.
  destruct (register_steps _ _ _ _ H)
    as (i & e & Hp & Hrc & Hi & Hreg & Hmgr & Htr & Hc & He).
  exists i. split; [exact Hp|]. split; [now rewrite Hrc|].
  split; [exact Hi|]. split; [exact Hreg|]. split; [exact Hmgr|].
  split; [exact Htr|]. rewrite Hrc. cbn [snd]. split.
  - intros Hr. apply Z.eqb_neq in Hr. rewrite Hr in Hc, He.
    split; [exact Hc|]. split; [exact He|].
    intros np. unfold find_by_of_node. now rewrite Hc, Hi.
  - intros ->. cbn in Hc, He. split; [exact Hc|]. split; [exact He|].
    intros np. unfold find_by_of_node.
    rewrite Hc, Hi, find_app_tail. cbn. now rewrite Hp.
Qed.

Lemma unregister_steps p (w w' : world) u :
  fpga_region_interface_unregister p w = Some (u, w') ->
  interfaces w' = interfaces w /\ region w' = region w /\
  mgr_ref_mutex w' = mgr_ref_mutex w /\
  class_devices w' =
    List.filter (fun q => negb (Nat.eqb q p)) (class_devices w).
Proof.
  intros H.
  destruct (interfaces w !! p) as [i|] eqn:Hp.
  - rewrite (interface_unregister_result w p i Hp) in H.
    inversion H; subst; clear H. destruct (remove_hook i); now cbn.
  - unfold fpga_region_interface_unregister, bind, deref in H.
    now rewrite Hp in H.
Qed.

(** X15. [fpga_region_interface_unregister] takes the interface out of its
    class: no lookup by device tree node answers it any more, and a lookup
    that answered another interface still does.  It does not release the
    interface: mutexes and recorded image infos are as before, so an
    interface that is held when it is unregistered stays held. *)
Theorem unregister_hides_interface p (w w' : world) u :
  fpga_region_interface_unregister p w = Some (u, w') ->
  interfaces w' = interfaces w /\ region w' = region w /\
  (forall np, find_by_of_node w' np <> Some p) /\
  (forall np q, q <> p -> find_by_of_node w np = Some q ->
                find_by_of_node w' np = Some q) /\
  (forall q, held w q -> held w' q).
Proof.
  intros H. destruct (unregister_steps _ _ _ _ H) as (Hi & Hreg & _ & Hc).
  split; [exact Hi|]. split; [exact Hreg|]. split; [|split].
  - intros np Hfind. unfold find_by_of_node in Hfind. rewrite Hc in Hfind.
    apply find_filter_In in Hfind. now rewrite Nat.eqb_refl in Hfind.
  - intros np q Hq Hfind. unfold find_by_of_node in *. rewrite Hc, Hi.
    apply (find_filter_other _ _ _ _ Hfind).
    apply Nat.eqb_neq in Hq. now rewrite Hq.
  - intros q (i & Hq & Hm). exists i. now rewrite Hi.
Qed.

Lemma filter_out_absent p (l : list nat) :
  ~ In p l -> List.filter (fun q => negb (Nat.eqb q p)) l = l.
Proof.
  induction l as [|a l IH]; [reflexivity|]. intros Hn. cbn.
  destruct (Nat.eqb a p) eqn:Ha.
  - apply Nat.eqb_eq in Ha. subst a. exfalso. apply Hn. now left.
  - cbn. rewrite IH; [reflexivity|]. intros Hin. apply Hn. now right.
Qed.

Lemma register_defined p i (w : world) :
  interfaces w !! p = Some i ->
  exists w1,
    fpga_region_interface_register P p w
      = Some (fst (device_add_rc P p (ext w)), w1).
Proof.
  intros Hp. unfold fpga_region_interface_register, device_add.
  unfold bind, deref, external, external_, ret. rewrite Hp.
  destruct (device_add_rc P p (ext w)) as [r e]. cbn.
  destruct (r =? 0)%Z eqn:Hr; cbn.
  - apply Z.eqb_eq in Hr; subst r. now eexists.
  - rewrite Hr. cbn. now eexists.
Qed.

(** X16. For an existing interface that is not yet in its class and that
    [device_add] accepts, [fpga_region_interface_register] returns 0, the
    [fpga_region_interface_unregister] that follows is defined, and the two
    together leave the class, the interfaces and the region as they were:
    every lookup by device tree node answers as before the registration. *)
Theorem register_unregister_round_trip p (w : world) :
  is_Some (interfaces w !! p) ->
  ~ In p (class_devices w) ->
  fst (device_add_rc P p (ext w)) = 0%Z ->
  exists w1 w2,
    fpga_region_interface_register P p w = Some (0%Z, w1) /\
    fpga_region_interface_unregister p w1 = Some (tt, w2) /\
    class_devices w2 = class_devices w /\
    interfaces w2 = interfaces w /\ region w2 = region w /\
    forall np, find_by_of_node w2 np = find_by_of_node w np.
Proof.
  intros [i0 Hp0] Hfresh Hadd.
  destruct (register_defined _ _ _ Hp0) as [w1 Hreg]. rewrite Hadd in Hreg.
  destruct (register_steps _ _ _ _ Hreg)
    as (i & e & Hp & _ & Hi & Hr & _ & _ & Hc & _).
  cbn in Hc. rewrite <- Hi in Hp.
  assert (Hun := interface_unregister_result w1 p i Hp).
  match type of Hun with _ = Some (_, ?x) => remember x as w2 eqn:Hw2 end.
  clear Hw2. exists w1, w2. split; [exact Hreg|]. split; [exact Hun|].
  destruct (unregister_steps _ _ _ _ Hun) as (Hi2 & Hr2 & _ & Hc2).
  assert (Hclass : List.filter (fun q => negb (Nat.eqb q p)) (class_devices w1)
                   = class_devices w).
  { rewrite Hc, List.filter_app, (filter_out_absent _ _ Hfresh). cbn.
    rewrite Nat.eqb_refl. cbn. now rewrite app_nil_r. }
  rewrite Hclass in Hc2.
  split; [exact Hc2|]. split; [now rewrite Hi2|]. split; [now rewrite Hr2|].
  intros np. unfold find_by_of_node. now rewrite Hc2, Hi2, Hi.
Qed.

(** ** The walk to the programming engine *)

(** X17. [fpga_region_manager_get_mgr] answers with the programming engine named
    by the nearest node, from [np] upwards, that is compatible with the
    region manager and has an [fpga-mgr] reference: it asks
    [of_fpga_mgr_get] for that reference and returns what it says, error
    included, without looking at any farther ancestor.  When no node up to
    the root names an engine it returns [-EINVAL] and changes nothing. *)
Theorem get_mgr_nearest_ancestor (chain : list nat) :
  forall fuel np (w : world),
    is_chain K np chain -> length chain < fuel ->
    (forall before n after mgr_node,
       chain = before ++ n :: after ->
       (forall m, In m before -> names_mgr K P m = false) ->
       of_device_is_compatible P n "ikwzm,fpga-region-manager" = true ->
       of_parse_phandle K (Some n) "fpga-mgr" 0 = Some mgr_node ->
       fpga_region_manager_get_mgr K P fuel np w
         = external (of_fpga_mgr_get P mgr_node) w) /\
    ((forall m, In m chain -> names_mgr K P m = false) ->
     fpga_region_manager_get_mgr K P fuel np w = Some (ERR_PTR EINVAL, w)).
Proof.
  induction chain as [|c chain IH]; intros fuel np w Hchain Hfuel.
  - cbn in Hchain. subst np. destruct fuel as [|fuel]; [cbn in Hfuel; lia|].
    split.
    + intros [|b before] n after mgr_node Heq; discriminate Heq.
    + intros _. reflexivity.
  - destruct Hchain as [-> Hchain].
    destruct fuel as [|fuel]; [cbn in Hfuel; lia|].
    assert (Hfuel' : length chain < fuel) by (cbn in Hfuel; lia).
    destruct (IH fuel (node_parent K c) w Hchain Hfuel') as [IHfound IHnone].
    assert (Hstep : names_mgr K P c = false ->
              fpga_region_manager_get_mgr K P (S fuel) (Some c) w
              = fpga_region_manager_get_mgr K P fuel (node_parent K c) w).
    { intros Hc. cbn [fpga_region_manager_get_mgr]. unfold names_mgr in Hc.
      destruct (of_device_is_compatible P c "ikwzm,fpga-region-manager");
        [|reflexivity].
      cbn [andb] in Hc.
      destruct (of_parse_phandle K (Some c) "fpga-mgr" 0);
        [discriminate|reflexivity]. }
    split.
    + intros [|b before] n after mgr_node Heq Hbefore Hcompat Hmgr.
      * cbn in Heq. inversion Heq; subst c chain; clear Heq.
        cbn [fpga_region_manager_get_mgr]. now rewrite Hcompat, Hmgr.
      * cbn in Heq. inversion Heq; subst b chain; clear Heq.
        rewrite Hstep by (apply Hbefore; now left).
        apply (IHfound before n after mgr_node eq_refl); [|assumption..].
        intros m Hm. apply Hbefore. now right.
    + intros Hnone. rewrite Hstep by (apply Hnone; now left).
      apply IHnone. intros m Hm. apply Hnone. now right.
Qed.

End AttachFacts.

(** ** The [compat_id] attribute *)










(** * Further properties at concrete inputs *)

Section MoreOnTheBoard.

Import Board.
Import Tree.

(** The free [fpga-clk0] is acquired. *)
Lemma interface_get_outcomes_witness :
  exists w1,
    __fpga_region_interface_get kernel0 clk0 (Some image) (idle 0 0)
      = Some (PTR clk0, w1) /\ held w1 clk0.
Proof.
  destruct (interface_get_outcomes kernel0 (idle 0 0) clk0
              (clock "fpga-clk0" clk0_np 0 0 false None) (Some image))
    as (res & w1 & Hrun & Hok & _ & _ & Hheld & _).
  - reflexivity.
  - assert (Hres : res = PTR clk0) by (apply Hok; split; reflexivity).
    subst res. exists w1. split; [exact Hrun|]. apply Hheld. now right.
Defined.

(** Acquiring and releasing [fpga-clk0] on the idle board. *)
Lemma interface_get_put_round_trip_witness :
  exists w1 w2,
    __fpga_region_interface_get kernel0 clk0 (Some image) (idle 0 0)
      = Some (PTR clk0, w1) /\
    fpga_region_interface_put kernel0 clk0 w1 = Some (tt, w2) /\
    same_objects (idle 0 0) w2.
Proof.
  destruct (interface_get_put_round_trip kernel0 (idle 0 0) clk0
              (clock "fpga-clk0" clk0_np 0 0 false None) (Some image))
    as (w1 & w2 & Hget & _ & _ & Hput & Hsame).
  - reflexivity.
  - reflexivity.
  - reflexivity.
  - reflexivity.
  - now exists w1, w2.
Defined.

(** Once [fpga-clk0] is acquired for [image], a second acquisition for
    [other_image] is refused. *)
Lemma interface_exclusive_until_put_witness :
  exists w1 w2,
    __fpga_region_interface_get kernel0 clk0 (Some image) (idle 0 0)
      = Some (PTR clk0, w1) /\
    __fpga_region_interface_get kernel0 clk0 (Some other_image) w1
      = Some (ERR_PTR EBUSY, w2).
Proof.
  pose (w1 := match __fpga_region_interface_get kernel0 clk0 (Some image)
                      (idle 0 0) with
              | Some (_, w) => w
              | None => idle 0 0
              end).
  assert (Hget : __fpga_region_interface_get kernel0 clk0 (Some image) (idle 0 0)
                 = Some (PTR clk0, w1)) by (vm_compute; reflexivity).
  destruct (interface_exclusive_until_put kernel0 (idle 0 0) w1 clk0 clk0
              (Some image) Hget) as (_ & _ & Hbusy & _).
  destruct (Hbusy (Some other_image)) as (w2 & H2 & _).
  now exists w1, w2.
Defined.

(** Releasing the list of the populated board. *)
Lemma interfaces_put_drains_witness :
  exists w',
    fpga_region_interfaces_put kernel0 [Interface clk0; Interface clk1]
      (populated 0 0) = Some ([], w') /\
    released w' clk0 /\ released w' clk1.
Proof.
  destruct (interfaces_put_drains kernel0 [Interface clk0; Interface clk1]
              (populated 0 0)) as (w' & Hput & Hrel & _).
  - intros p [[= <-]|[[= <-]|[]]]; eexists; reflexivity.
  - exists w'. split; [exact Hput|].
    split; apply Hrel; [now left|right; now left].
Defined.

(** The region of the idle board is taken and given back. *)
Lemma region_get_put_round_trip_witness :
  exists got w1,
    fpga_region_core_get kernel0 (idle 0 0) = Some (got, w1) /\
    region_mutex (region w1) = true.
Proof.
  destruct (region_get_put_round_trip kernel0 (idle 0 0))
    as (got & w1 & Hget & _ & _ & Hcase).
  - reflexivity.
  - exists got, w1. split; [exact Hget|].
    destruct got as [e|x].
    + destruct Hcase as (_ & Hmod & _). discriminate Hmod.
    + now destruct Hcase as (_ & Hm & _).
Defined.



(** The idle board has no interface on its list: the program call returns
    what the engine answers, here -5. *)
Lemma program_empty_list_returns_load_result_witness :
  fst <$> fpga_region_core_program_fpga failing_engine None (idle 0 0)
    = Some (-5)%Z.
Proof.
  destruct (program_empty_list_returns_load_result failing_engine (idle 0 0))
    as [Hfree _].
  - reflexivity.
  - reflexivity.
  - reflexivity.
  - destruct (Hfree eq_refl) as (w' & Hrun & _). rewrite Hrun. reflexivity.
Defined.

(** Both clocks are on the list, and the region also refers to the legacy
    bridge, which is in use: the resolver gives up with [-EBUSY], empties
    the list and releases both clocks. *)
Lemma get_interfaces_failure_is_busy_witness :
  exists w',
    fpga_region_manager_get_interfaces busy_bridge_kernel (populated 0 0)
      = Some (Z.neg EBUSY, w') /\
    interface_list (region w') = [] /\
    released w' clk0 /\ released w' clk1.
Proof.
  pose (w' := match fpga_region_manager_get_interfaces busy_bridge_kernel
                      (populated 0 0) with
              | Some (_, w) => w
              | None => populated 0 0
              end).
  assert (Hrun : fpga_region_manager_get_interfaces busy_bridge_kernel
                   (populated 0 0) = Some (Z.neg EBUSY, w'))
    by (vm_compute; reflexivity).
  destruct (get_interfaces_failure_is_busy busy_bridge_kernel (populated 0 0) w'
              (Z.neg EBUSY) Hrun) as (_ & [Hsame|(Hnil & Hrel)]).
  - discriminate.
  - discriminate Hsame.
  - exists w'. split; [exact Hrun|]. split; [exact Hnil|].
    split; apply Hrel; [now left|right; now left].
Defined.

(** On the idle board the resolver acquires both clocks and sets each of
    them up twice. *)
Lemma get_interfaces_success_sets_up_twice_witness :
  exists w',
    fpga_region_manager_get_interfaces kernel0 (idle 0 0) = Some (0%Z, w') /\
    visits "setup" (trace w')
      = [Interface clk1; Interface clk0; Interface clk1; Interface clk0].
Proof.
  pose (w' := match fpga_region_manager_get_interfaces kernel0 (idle 0 0) with
              | Some (_, w) => w
              | None => idle 0 0
              end).
  assert (Hrun : fpga_region_manager_get_interfaces kernel0 (idle 0 0)
                 = Some (0%Z, w')) by (vm_compute; reflexivity).
  destruct (get_interfaces_success_sets_up_twice kernel0 (idle 0 0) w' Hrun)
    as (im & w2 & w3 & _ & _ & _ & _ & Hsetup & _).
  exists w'. split; [exact Hrun|]. rewrite Hsetup. reflexivity.
Defined.

(** Both clocks are in use and the legacy framework of [tree_kernel] knows
    no bridge: the loop over the two references still returns 0. *)
Lemma busy_interface_does_not_stop_acquisition_witness :
  fst <$> get_interfaces_loop tree_kernel [clk0_np; clk1_np] None (Some image)
            (populated 0 0) = Some 0%Z.
Proof.
  destruct (busy_interface_does_not_stop_acquisition tree_kernel (Some image))
    as [_ Hloop].
  - intros np e. cbn. discriminate.
  - destruct (get_interfaces_loop tree_kernel [clk0_np; clk1_np] None
                (Some image) (populated 0 0)) as [[r w1]|] eqn:Hrun.
    + destruct (Hloop _ _ _ _ _ Hrun) as [-> _]. reflexivity.
    + vm_compute in Hrun. discriminate Hrun.
Defined.

(** Registering [fpga-clk0] on the board without devices makes it the
    answer for its node. *)
Lemma register_extends_lookup_witness :
  exists w',
    fpga_region_interface_register board_platform clk0 unregistered
      = Some (0%Z, w') /\
    find_by_of_node unregistered (Some clk0_np) = None /\
    find_by_of_node w' (Some clk0_np) = Some clk0.
Proof.
  pose (w' := match fpga_region_interface_register board_platform clk0
                      unregistered with
              | Some (_, w) => w
              | None => unregistered
              end).
  assert (Hrun : fpga_region_interface_register board_platform clk0 unregistered
                 = Some (0%Z, w')) by (vm_compute; reflexivity).
  destruct (register_extends_lookup board_platform clk0 unregistered w' 0%Z Hrun)
    as (i & Hi & _ & _ & _ & _ & _ & _ & Hok).
  destruct (Hok eq_refl) as (_ & _ & Hfind).
  exists w'. split; [exact Hrun|]. split; [reflexivity|].
  rewrite Hfind.
  assert (Hnode : of_node i = Some clk0_np).
  { vm_compute in Hi. now inversion Hi. }
  rewrite Hnode. reflexivity.
Defined.

(** Unregistering [fpga-clk0] on the populated board: its node resolves to
    nothing, [fpga-clk1] is still found, and [fpga-clk0] is still held. *)
Lemma unregister_hides_interface_witness :
  exists w',
    fpga_region_interface_unregister clk0 (populated 0 0) = Some (tt, w') /\
    find_by_of_node w' (Some clk0_np) = None /\
    find_by_of_node w' (Some clk1_np) = Some clk1 /\
    held w' clk0.
Proof.
  pose (w' := match fpga_region_interface_unregister clk0 (populated 0 0) with
              | Some (_, w) => w
              | None => populated 0 0
              end).
  assert (Hrun : fpga_region_interface_unregister clk0 (populated 0 0)
                 = Some (tt, w')) by (vm_compute; reflexivity).
  destruct (unregister_hides_interface clk0 (populated 0 0) w' tt Hrun)
    as (_ & _ & _ & Hkeep & Hheld).
  exists w'. split; [exact Hrun|]. split; [vm_compute; reflexivity|]. split.
  - apply Hkeep; [discriminate|vm_compute; reflexivity].
  - apply Hheld. eexists. split; vm_compute; reflexivity.
Defined.

(** [fpga-clk0] registered on the board without devices and unregistered
    again. *)
Lemma register_unregister_round_trip_witness :
  exists w1 w2,
    fpga_region_interface_register board_platform clk0 unregistered
      = Some (0%Z, w1) /\
    fpga_region_interface_unregister clk0 w1 = Some (tt, w2) /\
    class_devices w2 = [].
Proof.
  destruct (register_unregister_round_trip board_platform clk0 unregistered)
    as (w1 & w2 & Hreg & Hun & Hclass & _).
  - eexists. reflexivity.
  - cbn. tauto.
  - reflexivity.
  - now exists w1, w2.
Defined.

(** From [clk0_np] the walk passes [region_np], which is compatible but
    names no engine, and stops at node 5, whose engine is at address 70. *)
Lemma get_mgr_nearest_ancestor_witness :
  fst <$> fpga_region_manager_get_mgr tree_kernel board_platform 4
            (Some clk0_np) (idle 0 0) = Some (PTR 70).
Proof.
  destruct (get_mgr_nearest_ancestor tree_kernel board_platform
              [clk0_np; region_np; 5] 4 (Some clk0_np) (idle 0 0))
    as [Hfound _].
  - cbn. repeat split.
  - cbn. lia.
  - rewrite (Hfound [clk0_np; region_np] 5 [] 7).
    + reflexivity.
    + reflexivity.
    + intros m [<-|[<-|[]]]; reflexivity.
    + reflexivity.
    + reflexivity.
Defined.

End MoreOnTheBoard.
